(** * SolarSys: the animation and composition core of the planetary scene

    A shallow embedding of [frontend/src/components/PlanetarySystem.jsx] and
    of the registry [planetaryData] / [simulationSettings] of
    [frontend/src/data/mock.js], followed by the properties of the
    specification that concern them.

    Numbers.  JavaScript numbers are IEEE doubles; here a number is either
    [NaN] or an exact real, so [Math.cos], [Math.sin], [+] and [*] are the
    real functions, extended by "any operand NaN gives NaN".  Rounding and
    the infinities are not represented: every equality below is the exact
    identity that the running program meets up to rounding. *)

From Stdlib Require Import Reals Lra Lia List String Ascii Bool Arith NArith.
Import ListNotations.

Set Warnings "-register-all".

Open Scope R_scope.

(** ** JavaScript values *)

Module JS.

Inductive number : Type :=
| NaN
| Num (r : R).

Definition add (a b : number) : number :=
  match a, b with
  | Num p, Num q => Num (p + q)
  | _, _ => NaN
  end.

Definition mul (a b : number) : number :=
  match a, b with
  | Num p, Num q => Num (p * q)
  | _, _ => NaN
  end.

Definition div (a b : number) : number :=
  match a, b with
  | Num p, Num q => if Req_dec_T q 0 then NaN else Num (p / q)
  | _, _ => NaN
  end.

(** [Math.cos], [Math.sin] and [Math.PI]. *)
Module Math.
Definition cos (a : number) : number :=
  match a with Num p => Num (Rtrigo_def.cos p) | NaN => NaN end.
Definition sin (a : number) : number :=
  match a with Num p => Num (Rtrigo_def.sin p) | NaN => NaN end.
Definition PI : number := Num Rtrigo1.PI.
End Math.

(** The values that occur in the settings object and in the optional
    fields of a body: [undefined] (an absent property), booleans and
    numbers. *)
Inductive value : Type :=
| undefined
| Bool (b : bool)
| Number (n : number).

(** ToBoolean: [undefined], [false], [0] and [NaN] are falsy. *)
Definition truthy_number (n : number) : bool :=
  match n with
  | NaN => false
  | Num r => if Req_dec_T r 0 then false else true
  end.

Definition ToBoolean (v : value) : bool :=
  match v with
  | undefined => false
  | Bool b => b
  | Number n => truthy_number n
  end.

(** ToNumber, as applied by the arithmetic operators. *)
Definition ToNumber (v : value) : number :=
  match v with
  | undefined => NaN
  | Bool true => Num 1
  | Bool false => Num 0
  | Number n => n
  end.

(** An optional numeric property: [None] is the absent property, read as
    [undefined]. *)
Definition prop (o : option R) : value :=
  match o with
  | Some r => Number (Num r)
  | None => undefined
  end.

(** An optional string property under ToBoolean: absent and the empty
    string are falsy. *)
Definition truthy_string (o : option string) : bool :=
  match o with
  | Some s => negb (String.eqb s EmptyString)
  | None => false
  end.

(** A plain object used as a record with dynamic keys: its own properties
    in insertion order. *)
Definition object (V : Type) : Type := list (string * V).

Fixpoint get {V : Type} (key : string) (o : object V) : option V :=
  match o with
  | [] => None
  | (k, v) :: rest => if String.eqb k key then Some v else get key rest
  end.

(** Property names that are array indices: the decimal numeral, without
    leading zeros, of an integer from 0 to 2^32 - 2.  An object lists these
    names first, in ascending numeric order, and the other names after
    them in insertion order; the objects here are lists in that order. *)
Definition digit (c : ascii) : option N :=
  let n := N_of_ascii c in
  if (N.leb 48 n && N.leb n 57)%bool then Some (n - 48)%N else None.

Fixpoint numeral (s : string) (acc : N) : option N :=
  match s with
  | EmptyString => Some acc
  | String c rest =>
      match digit c with
      | Some d => numeral rest (10 * acc + d)%N
      | None => None
      end
  end.

Definition array_index (s : string) : option N :=
  match s with
  | EmptyString => None
  | String c rest =>
      if (Ascii.eqb c "0" && negb (String.eqb rest EmptyString))%bool then None
      else match numeral s 0 with
           | Some n => if N.leb n 4294967294 then Some n else None
           | None => None
           end
  end.

(** Assignment to a name that the object holds: the value changes, the
    place does not. *)
Fixpoint replace_value {V : Type} (o : object V) (key : string) (v : V)
    : object V :=
  match o with
  | [] => []
  | (k, w) :: rest =>
      if String.eqb k key then (k, v) :: rest
      else (k, w) :: replace_value rest key v
  end.

(** A new array index goes before the first name that is a greater index
    or not an index. *)
Fixpoint insert_index {V : Type} (i : N) (key : string) (v : V) (o : object V)
    : object V :=
  match o with
  | [] => [(key, v)]
  | (k, w) :: rest =>
      match array_index k with
      | Some j =>
          if N.ltb j i then (k, w) :: insert_index i key v rest
          else (key, v) :: (k, w) :: rest
      | None => (key, v) :: (k, w) :: rest
      end
  end.

(** [{...o, [key]: v}]: a name that the object holds keeps its place and
    takes the new value; a new name is added, an array index among the
    indices, any other name at the end. *)
Definition spread_set {V : Type} (o : object V) (key : string) (v : V)
    : object V :=
  match get key o with
  | Some _ => replace_value o key v
  | None =>
      match array_index key with
      | Some i => insert_index i key v o
      | None => o ++ [(key, v)]
      end
  end.

(** [Object.values]. *)
Definition values {V : Type} (o : object V) : list V := map snd o.

(** Reading a property of the settings object. *)
Definition field (key : string) (o : object value) : value :=
  match get key o with
  | Some v => v
  | None => undefined
  end.

(** The result of running a callback that mutates an object: it either
    runs to its end, or a TypeError propagates; in both cases [a] is the
    object as the callback left it. *)
Inductive outcome (A : Type) : Type :=
| Done (a : A)
| Throws (a : A).
Arguments Done {A} a.
Arguments Throws {A} a.

Definition state_of {A : Type} (o : outcome A) : A :=
  match o with Done a => a | Throws a => a end.

Definition completes {A : Type} (o : outcome A) : bool :=
  match o with Done _ => true | Throws _ => false end.

End JS.

Import JS.

Declare Scope js_scope.
Delimit Scope js_scope with js.
Infix "+" := JS.add : js_scope.
Infix "*" := JS.mul : js_scope.
Infix "/" := JS.div : js_scope.

(** ** three.js objects *)

Module THREE.

Record Vector3 : Type := mkVector3 { x : number; y : number; z : number }.

(** The part of a [Mesh] that the frame callback reads and writes. *)
Record Object3D : Type := mkObject3D {
  position : Vector3;
  rotation : Vector3
}.

Definition set_position_x (o : Object3D) (v : number) : Object3D :=
  mkObject3D (mkVector3 v (y (position o)) (z (position o))) (rotation o).

Definition set_position_z (o : Object3D) (v : number) : Object3D :=
  mkObject3D (mkVector3 (x (position o)) (y (position o)) v) (rotation o).

Definition set_rotation_y (o : Object3D) (v : number) : Object3D :=
  mkObject3D (position o) (mkVector3 (x (rotation o)) v (z (rotation o))).

End THREE.

(** ** The registry (data/mock.js) *)

(** A body of [planetaryData].  [description], [facts], [texture],
    [hasFlares] and [hasAtmosphere] are carried to the information panel
    only and are left out. *)
Record Body : Type := mkBody {
  id : string;
  name : string;
  radius : R;
  color : string;
  orbitRadius : option R;
  orbitSpeed : option R;
  rotationSpeed : R;
  parent : option string;
  position : R * R * R;
  emissive : bool
}.

Definition sun : Body :=
  mkBody "sun" "Sun" 5 "#FDB813" None None 0.001 None (0, 0, 0) true.

Definition mercury : Body :=
  mkBody "mercury" "Mercury" 0.8 "#8C7853" (Some 15) (Some 0.02) 0.005 None
         (15, 0, 0) false.

Definition venus : Body :=
  mkBody "venus" "Venus" 1.2 "#FFC649" (Some 22) (Some 0.015) (-0.002) None
         (22, 0, 0) false.

Definition earth : Body :=
  mkBody "earth" "Earth" 1.3 "#6B93D6" (Some 30) (Some 0.01) 0.01 None
         (30, 0, 0) false.

Definition moon : Body :=
  mkBody "moon" "Moon" 0.35 "#D3D3D3" (Some 4) (Some 0.05) 0.05 (Some "earth"%string)
         (34, 0, 0) false.

Definition planetaryData : object Body :=
  [ ("sun"%string, sun); ("mercury"%string, mercury); ("venus"%string, venus);
    ("earth"%string, earth); ("moon"%string, moon) ].

Definition simulationSettings : object value :=
  [ ("timeSpeed"%string, Number (Num 1));
    ("showOrbits"%string, Bool true);
    ("showLabels"%string, Bool true);
    ("cameraDistance"%string, Number (Num 80));
    ("ambientLightIntensity"%string, Number (Num 0.2));
    ("pointLightIntensity"%string, Number (Num 1.5)) ].

(** ** Planet *)

Definition vector_of (p : R * R * R) : THREE.Vector3 :=
  let '(a, b, c) := p in THREE.mkVector3 (Num a) (Num b) (Num c).

(** The mesh as mounted: [position={data.position}], no rotation. *)
Definition Planet_mount (data : Body) : THREE.Object3D :=
  THREE.mkObject3D (vector_of (position data))
                   (THREE.mkVector3 (Num 0) (Num 0) (Num 0)).

(** The body of the [useFrame] callback of [Planet], for an attached mesh.
    [planetaryData.earth] is read only in the second branch; when the
    registry has no [earth], reading [.orbitSpeed] of it throws. *)
Definition Planet_frame (planetaryData : object Body) (data : Body)
    (time : number) (mesh : THREE.Object3D) : outcome THREE.Object3D :=
  let mesh :=
    THREE.set_rotation_y mesh
      (THREE.y (THREE.rotation mesh) + Num (rotationSpeed data))%js in
  if ToBoolean (prop (orbitRadius data)) && negb (truthy_string (parent data)) then
    let angle := (time * ToNumber (prop (orbitSpeed data)))%js in
    let mesh :=
      THREE.set_position_x mesh
        (Math.cos angle * ToNumber (prop (orbitRadius data)))%js in
    let mesh :=
      THREE.set_position_z mesh
        (Math.sin angle * ToNumber (prop (orbitRadius data)))%js in
    Done mesh
  else if truthy_string (parent data) then
    match get "earth" planetaryData with
    | None => Throws mesh
    | Some earth =>
        let earthAngle := (time * ToNumber (prop (orbitSpeed earth)))%js in
        let earthX := (Math.cos earthAngle * ToNumber (prop (orbitRadius earth)))%js in
        let earthZ := (Math.sin earthAngle * ToNumber (prop (orbitRadius earth)))%js in
        let moonAngle := (time * ToNumber (prop (orbitSpeed data)))%js in
        let mesh :=
          THREE.set_position_x mesh
            (earthX + Math.cos moonAngle * ToNumber (prop (orbitRadius data)))%js in
        let mesh :=
          THREE.set_position_z mesh
            (earthZ + Math.sin moonAngle * ToNumber (prop (orbitRadius data)))%js in
        Done mesh
    end
  else Done mesh.

(** The callback itself: [if (meshRef.current) { ... }]. *)
Definition Planet_useFrame (planetaryData : object Body) (data : Body)
    (time : number) (meshRef : option THREE.Object3D)
    : outcome (option THREE.Object3D) :=
  match meshRef with
  | None => Done None
  | Some mesh =>
      match Planet_frame planetaryData data time mesh with
      | Done m => Done (Some m)
      | Throws m => Throws (Some m)
      end
  end.

Definition outcome_map {A B : Type} (f : A -> B) (o : outcome A) : outcome B :=
  match o with
  | Done a => Done (f a)
  | Throws a => Throws (f a)
  end.

(** ** The scene graph *)

(** The elements that the components return.  A [group] is given no
    transform in this program, so its children keep their own coordinates.
    [null] stands for a child that renders nothing. *)
Inductive element : Type :=
| ambientLight (intensity : value)
| pointLight (position : THREE.Vector3) (intensity : value)
| Stars (radius depth count factor : R)
| line (geometry : list THREE.Vector3)
| mesh (position : R * R * R) (sphere : R) (color emissive : string)
       (emissiveIntensity : R) (onClick : Body)
| Text (position : THREE.Vector3) (fontSize : R) (children : string)
| group (children : list element)
| null.

(** The element returned by [Planet]. *)
Definition Planet (data : Body) (showLabels : value) : element :=
  group
    [ mesh (position data) (radius data) (color data)
        (if emissive data then color data else "#000000"%string)
        (if emissive data then 0.3 else 0)
        data;
      if ToBoolean showLabels then
        let '(p0, p1, p2) := position data in
        Text (THREE.mkVector3 (Num p0) (Num (p1 + radius data + 2)) (Num p2))
             1.5 (name data)
      else null ].

(** ** OrbitPath *)

(** The point pushed at index [i] of the loop [for (i = 0; i <= 64; i++)]. *)
Definition OrbitPath_point (radius : value) (i : nat) : THREE.Vector3 :=
  let angle := ((Num (INR i) / Num 64) * Math.PI * Num 2)%js in
  THREE.mkVector3 (Math.cos angle * ToNumber radius)%js
                  (Num 0)
                  (Math.sin angle * ToNumber radius)%js.

Definition OrbitPath_points (radius : value) : list THREE.Vector3 :=
  map (OrbitPath_point radius) (seq 0 65).

(** [n || 0]. *)
Definition or_zero (n : number) : number :=
  if truthy_number n then n else Num 0.

(** [new THREE.BufferGeometry().setFromPoints(points)]: the position
    attribute takes [point.x], [point.y] and [point.z || 0] of every point
    (the rounding to single precision is not represented). *)
Definition setFromPoints (points : list THREE.Vector3) : list THREE.Vector3 :=
  map (fun point =>
         THREE.mkVector3 (THREE.x point) (THREE.y point) (or_zero (THREE.z point)))
      points.

Definition OrbitPath (radius : value) (visible : value) : element :=
  if ToBoolean visible then line (setFromPoints (OrbitPath_points radius))
  else null.

(** ** SolarSystemScene *)

(** The children of the fragment that [SolarSystemScene] returns, arrays
    flattened.  Evaluating [planetaryData.moon.orbitRadius] throws when the
    registry has no [moon]; it is evaluated only when [settings.showOrbits]
    is truthy.  [None] is that TypeError. *)
Definition SolarSystemScene (planetaryData : object Body)
    (settings : object value) : option (list element) :=
  let orbits :=
    map (fun planet =>
           if ToBoolean (prop (orbitRadius planet))
              && negb (truthy_string (parent planet))
           then OrbitPath (prop (orbitRadius planet)) (field "showOrbits" settings)
           else null)
        (values planetaryData) in
  let planets :=
    map (fun planet => Planet planet (field "showLabels" settings))
        (values planetaryData) in
  let head :=
    [ ambientLight (field "ambientLightIntensity" settings);
      pointLight (THREE.mkVector3 (Num 0) (Num 0) (Num 0))
                 (field "pointLightIntensity" settings);
      Stars 300 60 20000 7 ] in
  if ToBoolean (field "showOrbits" settings) then
    match get "moon" planetaryData with
    | None => None
    | Some moon =>
        Some (head ++ orbits
              ++ [ group [ OrbitPath (prop (orbitRadius moon))
                                     (field "showOrbits" settings) ] ]
              ++ planets)
    end
  else Some (head ++ orbits ++ [ null ] ++ planets).

(** The polylines of a scene graph, in document order. *)
Fixpoint lines_of (e : element) : list (list THREE.Vector3) :=
  match e with
  | line pts => [pts]
  | group children => flat_map lines_of children
  | _ => []
  end.

Definition orbit_guides (scene : list element) : list (list THREE.Vector3) :=
  flat_map lines_of scene.

(** The [Planet] elements' meshes carry the body handed to [onClick]. *)
Fixpoint bodies_of (e : element) : list Body :=
  match e with
  | mesh _ _ _ _ _ data => [data]
  | group children => flat_map bodies_of children
  | _ => []
  end.

(** The state that the frame loop works on: the [time] of
    [SolarSystemScene] and, for every [Planet], its body and attached mesh. *)
Record Scene : Type := mkScene {
  time : number;
  planets : list (Body * THREE.Object3D)
}.

(** After the first commit: [useState(0)] and every mesh as mounted. *)
Definition SolarSystemScene_mount (planetaryData : object Body) : Scene :=
  mkScene (Num 0)
          (map (fun planet => (planet, Planet_mount planet)) (values planetaryData)).

(** The updater passed to [setTime] in the [useFrame] of the scene. *)
Definition SolarSystemScene_useFrame (settings : object value) (prev : number)
    : number :=
  (prev + ToNumber (field "timeSpeed" settings) * Num 0.01)%js.

(** The [Planet] callbacks of one frame, in order; all of them read the
    [time] of the last render.  A TypeError ends the frame. *)
Fixpoint Planets_useFrame (planetaryData : object Body) (time : number)
    (ps : list (Body * THREE.Object3D)) : outcome (list (Body * THREE.Object3D)) :=
  match ps with
  | [] => Done []
  | (data, m) :: rest =>
      match Planet_frame planetaryData data time m with
      | Throws m' => Throws ((data, m') :: rest)
      | Done m' =>
          outcome_map (cons (data, m')) (Planets_useFrame planetaryData time rest)
      end
  end.

(** One frame: the planets move to the position of the current [time],
    then [setTime] advances it for the next render. *)
Definition frame (planetaryData : object Body) (settings : object value)
    (s : Scene) : outcome Scene :=
  match Planets_useFrame planetaryData (time s) (planets s) with
  | Done ps => Done (mkScene (SolarSystemScene_useFrame settings (time s)) ps)
  | Throws ps => Throws (mkScene (time s) ps)
  end.

(** A run of frames, each with the settings in force when it is rendered.
    A frame whose callbacks throw leaves the scene as it was when the
    TypeError was raised, and the loop goes on with the next frame. *)
Fixpoint frames (planetaryData : object Body) (ss : list (object value))
    (s : Scene) : Scene :=
  match ss with
  | [] => s
  | settings :: rest =>
      frames planetaryData rest (state_of (frame planetaryData settings s))
  end.

(** ** PlanetarySystem *)

Record PlanetarySystem_state : Type := mkState {
  selectedPlanet : option Body;
  settings : object value
}.

Definition PlanetarySystem_init : PlanetarySystem_state :=
  mkState None simulationSettings.

Definition handlePlanetClick (planet : Body) (st : PlanetarySystem_state)
    : PlanetarySystem_state :=
  mkState (Some planet) (settings st).

Definition handleSettingChange (key : string) (v : value)
    (st : PlanetarySystem_state) : PlanetarySystem_state :=
  mkState (selectedPlanet st) (spread_set (settings st) key v).

(** ** Derived notions used in the statements *)

(** The same [Planet] callback invoked once for each time of a list, in
    order, whether or not an invocation throws. *)
Fixpoint Planet_frames (planetaryData : object Body) (data : Body)
    (times : list number) (m : THREE.Object3D) : THREE.Object3D :=
  match times with
  | [] => m
  | t :: rest =>
      Planet_frames planetaryData data rest
        (state_of (Planet_frame planetaryData data t m))
  end.

(** The position of a body's mesh once the callback has run at [t], after
    mounting and any earlier frames. *)
Definition resolvedPosition (planetaryData : object Body) (data : Body)
    (earlier : list number) (t : number) : THREE.Vector3 :=
  THREE.position
    (state_of (Planet_frame planetaryData data t
                 (Planet_frames planetaryData data earlier (Planet_mount data)))).

Definition basePosition_y (data : Body) : R := snd (fst (position data)).

Definition origin : THREE.Vector3 := THREE.mkVector3 (Num 0) (Num 0) (Num 0).

(** Euclidean distance between two points, [NaN] when a coordinate is. *)
Definition distance (p q : THREE.Vector3) : number :=
  match THREE.x p, THREE.y p, THREE.z p, THREE.x q, THREE.y q, THREE.z q with
  | Num px, Num py, Num pz, Num qx, Num qy, Num qz =>
      Num (sqrt ((px - qx) * (px - qx) + (py - qy) * (py - qy)
                 + (pz - qz) * (pz - qz)))
  | _, _, _, _, _, _ => NaN
  end.

(** Distance measured in the horizontal (x, z) plane. *)
Definition horizontal_distance (p q : THREE.Vector3) : number :=
  match THREE.x p, THREE.z p, THREE.x q, THREE.z q with
  | Num px, Num pz, Num qx, Num qz =>
      Num (sqrt ((px - qx) * (px - qx) + (pz - qz) * (pz - qz)))
  | _, _, _, _ => NaN
  end.




(** The test [planet.orbitRadius && !planet.parent] of the source. *)
Definition root_orbit (planet : Body) : bool :=
  ToBoolean (prop (orbitRadius planet)) && negb (truthy_string (parent planet)).

(** No callback of the frame reads a missing [planetaryData.earth]. *)
Definition frame_safe (planetaryData : object Body)
    (ps : list (Body * THREE.Object3D)) : bool :=
  match get "earth" planetaryData with
  | Some _ => true
  | None => forallb (fun p => negb (truthy_string (parent (fst p)))) ps
  end.

Definition positions (s : Scene) : list THREE.Vector3 :=
  map (fun p => THREE.position (snd p)) (planets s).

Definition spins (s : Scene) : list number :=
  map (fun p => THREE.y (THREE.rotation (snd p))) (planets s).

(** The spin of a planet after [n] further frames, each adding
    [rotationSpeed]. *)
Definition spin_after (n : nat) (p : Body * THREE.Object3D) : number :=
  Nat.iter n (fun a => (a + Num (rotationSpeed (fst p)))%js)
           (THREE.y (THREE.rotation (snd p))).

Definition timeSpeed_of (settings : object value) : number :=
  ToNumber (field "timeSpeed" settings).

(** Some body of the registry names a parent that the registry lacks. *)
Definition dangling_parent (planetaryData : object Body) : bool :=
  existsb (fun planet =>
             match parent planet with
             | Some p => match get p planetaryData with
                         | Some _ => false
                         | None => true
                         end
             | None => false
             end)
          (values planetaryData).

(** *** The rule of the specification, by the letter

    Section 4.1 of the specification: a body without [orbitRadius] and
    without [parentId] stays at its base position; a body with
    [orbitRadius] and no [parentId] circles the origin; a body with a
    [parentId] is placed relative to the position that the same rule gives
    to the body that [parentId] names. *)
Definition spec_own_position (t : number) (b : Body) : THREE.Vector3 :=
  match orbitRadius b with
  | None => vector_of (position b)
  | Some r =>
      let angle := (t * ToNumber (prop (orbitSpeed b)))%js in
      THREE.mkVector3 (Math.cos angle * Num r)%js
                      (Num (basePosition_y b))
                      (Math.sin angle * Num r)%js
  end.

Definition spec_resolve (registry : object Body) (t : number) (b : Body)
    : option THREE.Vector3 :=
  match parent b with
  | None => Some (spec_own_position t b)
  | Some parentId =>
      match get parentId registry with
      | None => None
      | Some p =>
          let parentPosition := spec_own_position t p in
          let angle := (t * ToNumber (prop (orbitSpeed b)))%js in
          Some (THREE.mkVector3
                  (THREE.x parentPosition
                   + Math.cos angle * ToNumber (prop (orbitRadius b)))%js
                  (THREE.y parentPosition + Num 0)%js
                  (THREE.z parentPosition
                   + Math.sin angle * ToNumber (prop (orbitRadius b)))%js)
      end
  end.

(** *** Registries and bodies used as examples *)

(** A moon of Venus, added to the registry. *)
Definition venus_moon : Body :=
  mkBody "neith" "Neith" 0.3 "#AAAAAA" (Some 2) (Some 0.03) 0.02
         (Some "venus"%string) (24, 0, 0) false.

Definition planetaryData_venus_moon : object Body :=
  planetaryData ++ [ ("neith"%string, venus_moon) ].

(** A body whose parent is not in the registry. *)
Definition orphan : Body :=
  mkBody "phobos" "Phobos" 0.2 "#BBBBBB" (Some 3) (Some 0.04) 0.03
         (Some "mars"%string) (43, 0, 0) false.

Definition planetaryData_orphan : object Body :=
  planetaryData ++ [ ("phobos"%string, orphan) ].

(** A planet whose base position lies above the orbital plane. *)
Definition raised_planet : Body :=
  mkBody "ceres" "Ceres" 0.5 "#999999" (Some 3) (Some 0.01) 0.01 None
         (3, 4, 0) false.

(** The registry of the scenario of section 8: the Sun, Earth and the Moon. *)
Definition scenario_registry : object Body :=
  [ ("sun"%string, sun); ("earth"%string, earth); ("moon"%string, moon) ].

(** The height invariant of a planet: its mesh is at the height of its base
    position. *)
Definition at_base_height (p : Body * THREE.Object3D) : Prop :=
  THREE.y (THREE.position (snd p)) = Num (basePosition_y (fst p)).

(** A planet after its callback has run at [t]. *)
Definition advance (planetaryData : object Body) (t : number)
    (p : Body * THREE.Object3D) : Body * THREE.Object3D :=
  (fst p, state_of (Planet_frame planetaryData (fst p) t (snd p))).

(** The positions that the callbacks resolve from the simulation time of
    scene [s]. *)
Definition positions_at_time (planetaryData : object Body) (s : Scene)
    : list THREE.Vector3 :=
  map (fun p => THREE.position (snd (advance planetaryData (time s) p)))
      (planets s).

(** The speed in force is a number that is not negative. *)
Definition nonnegative_speed (settings : object value) : Prop :=
  exists v : R, timeSpeed_of settings = Num v /\ 0 <= v.

(** The speed in force is 0. *)
Definition zero_speed (settings : object value) : Prop :=
  timeSpeed_of settings = Num 0.

(** The simulation time before a run of frames and after each of its
    frames, in order. *)
Fixpoint times_of (planetaryData : object Body) (ss : list (object value))
    (s : Scene) : list number :=
  match ss with
  | [] => [time s]
  | settings :: rest =>
      time s :: times_of planetaryData rest
                  (state_of (frame planetaryData settings s))
  end.

(** Every number of the list is at most the next one. *)
Fixpoint nondecreasing (ts : list number) : Prop :=
  match ts with
  | Num a :: ((Num b :: _) as rest) => a <= b /\ nondecreasing rest
  | [Num _] => True
  | [] => True
  | _ => False
  end.

(** The guides of the bodies that orbit the origin, in registry order. *)
Definition root_guides (planetaryData : object Body) : list (list THREE.Vector3) :=
  map (fun planet => OrbitPath_points (prop (orbitRadius planet)))
      (filter root_orbit (values planetaryData)).

(** The session after the time-speed slider has been moved to 0. *)
Definition paused_settings : object value :=
  settings (handleSettingChange "timeSpeed" (Number (Num 0)) PlanetarySystem_init).

(** The scene one frame after mounting, at the default speed. *)
Definition after_first_frame : Scene :=
  state_of (frame planetaryData simulationSettings
              (SolarSystemScene_mount planetaryData)).

(** The two arrays of elements in the fragment of [SolarSystemScene]. *)
Definition orbit_elements (planetaryData : object Body)
    (settings : object value) : list element :=
  map (fun planet =>
         if ToBoolean (prop (orbitRadius planet))
            && negb (truthy_string (parent planet))
         then OrbitPath (prop (orbitRadius planet)) (field "showOrbits" settings)
         else null)
      (values planetaryData).

Definition planet_elements (planetaryData : object Body)
    (settings : object value) : list element :=
  map (fun planet => Planet planet (field "showLabels" settings))
      (values planetaryData).

(** *** Notions used in the further properties *)

(** The property names of an object, in insertion order. *)
Definition keys {V : Type} (o : object V) : list string := map fst o.

(** The labels of a scene graph, in document order: position and text. *)
Fixpoint labels_of (e : element) : list (THREE.Vector3 * string) :=
  match e with
  | Text p _ s => [(p, s)]
  | group children => flat_map labels_of children
  | _ => []
  end.

Definition scene_labels (scene : list element) : list (THREE.Vector3 * string) :=
  flat_map labels_of scene.

(** The label that [Planet] gives a body: above its base position by its
    radius and 2, showing its name. *)
Definition label_of (data : Body) : THREE.Vector3 * string :=
  let '(p0, p1, p2) := position data in
  (THREE.mkVector3 (Num p0) (Num (p1 + radius data + 2)) (Num p2), name data).

(** The segments of a polyline: every vertex with its successor. *)
Definition edges (g : list THREE.Vector3) : list (THREE.Vector3 * THREE.Vector3) :=
  combine g (tl g).

(** The bodies of the planets of a scene, in order. *)
Definition bodies_in (s : Scene) : list Body := map fst (planets s).

(** The clock after a run of frames all of which run to their end. *)
Definition clock_after (ss : list (object value)) (t : number) : number :=
  fold_left (fun t settings => SolarSystemScene_useFrame settings t) ss t.

(** A registry whose [moon] entry has no [orbitRadius]. *)
Definition bare_moon : Body :=
  mkBody "moon" "Moon" 0.35 "#D3D3D3" None (Some 0.05) 0.05 (Some "earth"%string)
         (34, 0, 0) false.

Definition planetaryData_bare_moon : object Body :=
  [ ("sun"%string, sun); ("earth"%string, earth); ("moon"%string, bare_moon) ].

(** A registry without [earth], holding a body with a parent. *)
Definition planetaryData_no_earth : object Body :=
  [ ("sun"%string, sun); ("moon"%string, moon); ("venus"%string, venus) ].

(** A body without a parent whose [orbitRadius] is 0, away from the
    origin. *)
Definition still_planet : Body :=
  mkBody "vulcan" "Vulcan" 0.4 "#888888" (Some 0) (Some 0.01) 0.01 None
         (5, 1, 2) false.


(** * Properties *)

(** ** The frame callback of a planet *)

Section PlanetFrame.

Variable registry : object Body.
Variable data : Body.

(** The three ways through the callback, by the tests of the source. *)
Ltac by_branch :=
  unfold Planet_frame, root_orbit in *;
  destruct (ToBoolean (prop (orbitRadius data))
            && negb (truthy_string (parent data))) eqn:Hroot;
  [ | destruct (truthy_string (parent data)) eqn:Hparent;
      [ destruct (get "earth" registry) as [e|] eqn:Hearth | ] ];
  cbn.

Lemma Planet_frame_position_y (t : number) (m : THREE.Object3D) :
  THREE.y (THREE.position (state_of (Planet_frame registry data t m)))
  = THREE.y (THREE.position m).
Proof. by_branch; reflexivity. Qed.

Lemma Planet_frame_rotation (t : number) (m : THREE.Object3D) :
  THREE.rotation (state_of (Planet_frame registry data t m))
  = THREE.mkVector3 (THREE.x (THREE.rotation m))
      (THREE.y (THREE.rotation m) + Num (rotationSpeed data))%js
      (THREE.z (THREE.rotation m)).
Proof. by_branch; reflexivity. Qed.

Lemma Planet_frame_root (t : number) (m : THREE.Object3D) :
  root_orbit data = true ->
  Planet_frame registry data t m
  = Done (THREE.mkObject3D
            (THREE.mkVector3
               (Math.cos (t * ToNumber (prop (orbitSpeed data)))
                * ToNumber (prop (orbitRadius data)))%js
               (THREE.y (THREE.position m))
               (Math.sin (t * ToNumber (prop (orbitSpeed data)))
                * ToNumber (prop (orbitRadius data)))%js)
            (THREE.mkVector3 (THREE.x (THREE.rotation m))
               (THREE.y (THREE.rotation m) + Num (rotationSpeed data))%js
               (THREE.z (THREE.rotation m)))).
Proof. intros H. by_branch; try discriminate. reflexivity. Qed.

Lemma Planet_frame_child (t : number) (m : THREE.Object3D) (e : Body) :
  truthy_string (parent data) = true ->
  get "earth" registry = Some e ->
  Planet_frame registry data t m
  = Done (THREE.mkObject3D
            (THREE.mkVector3
               (Math.cos (t * ToNumber (prop (orbitSpeed e)))
                * ToNumber (prop (orbitRadius e))
                + Math.cos (t * ToNumber (prop (orbitSpeed data)))
                  * ToNumber (prop (orbitRadius data)))%js
               (THREE.y (THREE.position m))
               (Math.sin (t * ToNumber (prop (orbitSpeed e)))
                * ToNumber (prop (orbitRadius e))
                + Math.sin (t * ToNumber (prop (orbitSpeed data)))
                  * ToNumber (prop (orbitRadius data)))%js)
            (THREE.mkVector3 (THREE.x (THREE.rotation m))
               (THREE.y (THREE.rotation m) + Num (rotationSpeed data))%js
               (THREE.z (THREE.rotation m)))).
Proof.
  intros Hp He. unfold Planet_frame. rewrite Hp, He.
  rewrite andb_false_r. reflexivity.
Qed.

Lemma Planet_frame_child_throws (t : number) (m : THREE.Object3D) :
  truthy_string (parent data) = true ->
  get "earth" registry = None ->
  Planet_frame registry data t m
  = Throws (THREE.set_rotation_y m
              (THREE.y (THREE.rotation m) + Num (rotationSpeed data))%js).
Proof.
  intros Hp He. unfold Planet_frame. rewrite Hp, He.
  rewrite andb_false_r. reflexivity.
Qed.

Lemma Planet_frame_still (t : number) (m : THREE.Object3D) :
  root_orbit data = false ->
  truthy_string (parent data) = false ->
  Planet_frame registry data t m
  = Done (THREE.set_rotation_y m
            (THREE.y (THREE.rotation m) + Num (rotationSpeed data))%js).
Proof.
  intros Hr Hp. unfold Planet_frame. unfold root_orbit in Hr.
  rewrite Hr, Hp. reflexivity.
Qed.

(** A callback completes unless it is a child's and [earth] is missing. *)
Lemma Planet_frame_completes (t : number) (m : THREE.Object3D) :
  completes (Planet_frame registry data t m)
  = negb (truthy_string (parent data))
    || match get "earth" registry with Some _ => true | None => false end.
Proof.
  by_branch; try reflexivity.
  apply andb_prop in Hroot. destruct Hroot as [_ Hn].
  rewrite Hn. reflexivity.
Qed.

(** The position that a callback leaves depends on the mesh through its
    position only, and running it again at the same time changes
    nothing more. *)
Lemma Planet_frame_position_again (t : number) (m : THREE.Object3D) :
  THREE.position
    (state_of (Planet_frame registry data t
                 (state_of (Planet_frame registry data t m))))
  = THREE.position (state_of (Planet_frame registry data t m)).
Proof. by_branch; reflexivity. Qed.

(** What earlier frames did to the mesh does not show in the position
    that the callback leaves. *)
Lemma Planet_frame_forgets (t t' : number) (m : THREE.Object3D) :
  THREE.position
    (state_of (Planet_frame registry data t
                 (state_of (Planet_frame registry data t' m))))
  = THREE.position (state_of (Planet_frame registry data t m)).
Proof. by_branch; reflexivity. Qed.

Lemma Planet_frames_forgotten (earlier : list number) (t : number)
    (m : THREE.Object3D) :
  THREE.position
    (state_of (Planet_frame registry data t
                 (Planet_frames registry data earlier m)))
  = THREE.position (state_of (Planet_frame registry data t m)).
Proof.
  revert m. induction earlier as [|t' earlier IH]; intros m; cbn [Planet_frames].
  - reflexivity.
  - rewrite IH. apply Planet_frame_forgets.
Qed.

Lemma Planet_frames_position_y (times : list number) (m : THREE.Object3D) :
  THREE.y (THREE.position (Planet_frames registry data times m))
  = THREE.y (THREE.position m).
Proof.
  revert m. induction times as [|t times IH]; intros m; cbn [Planet_frames].
  - reflexivity.
  - rewrite IH. apply Planet_frame_position_y.
Qed.

Lemma resolvedPosition_from_mount (earlier : list number) (t : number) :
  resolvedPosition registry data earlier t
  = THREE.position (state_of (Planet_frame registry data t (Planet_mount data))).
Proof. apply Planet_frames_forgotten. Qed.

End PlanetFrame.

Lemma Planet_mount_position_y (data : Body) :
  THREE.y (THREE.position (Planet_mount data)) = Num (basePosition_y data).
Proof.
  unfold Planet_mount, basePosition_y, vector_of.
  destruct (position data) as [[a b] c]. reflexivity.
Qed.

Lemma Planet_useFrame_attached (registry : object Body) (data : Body)
    (t : number) (m : THREE.Object3D) :
  Planet_useFrame registry data t (Some m)
  = outcome_map Some (Planet_frame registry data t m).
Proof.
  unfold Planet_useFrame. destruct (Planet_frame registry data t m); reflexivity.
Qed.

Lemma truthy_number_nonzero (r : R) : r <> 0 -> truthy_number (Num r) = true.
Proof. intros H. unfold truthy_number. destruct (Req_dec_T r 0); [contradiction | reflexivity]. Qed.

Lemma root_orbit_intro (data : Body) (r : R) :
  orbitRadius data = Some r -> r <> 0 ->
  truthy_string (parent data) = false ->
  root_orbit data = true.
Proof.
  intros Hr Hnz Hp. unfold root_orbit. rewrite Hr, Hp. cbn [prop ToBoolean].
  rewrite truthy_number_nonzero by assumption. reflexivity.
Qed.

(** ** Orbit kinematics *)

Lemma resolvedPosition_root (registry : object Body) (data : Body)
    (earlier : list number) (t : number) :
  root_orbit data = true ->
  resolvedPosition registry data earlier t
  = THREE.mkVector3
      (Math.cos (t * ToNumber (prop (orbitSpeed data)))
       * ToNumber (prop (orbitRadius data)))%js
      (Num (basePosition_y data))
      (Math.sin (t * ToNumber (prop (orbitSpeed data)))
       * ToNumber (prop (orbitRadius data)))%js.
Proof.
  intros Hroot. rewrite resolvedPosition_from_mount.
  rewrite (Planet_frame_root registry data t _ Hroot).
  cbn [state_of THREE.position].
  rewrite Planet_mount_position_y. reflexivity.
Qed.

Lemma resolvedPosition_child (registry : object Body) (data e : Body)
    (earlier : list number) (t : number) :
  truthy_string (parent data) = true ->
  get "earth" registry = Some e ->
  resolvedPosition registry data earlier t
  = THREE.mkVector3
      (Math.cos (t * ToNumber (prop (orbitSpeed e))) * ToNumber (prop (orbitRadius e))
       + Math.cos (t * ToNumber (prop (orbitSpeed data)))
         * ToNumber (prop (orbitRadius data)))%js
      (Num (basePosition_y data))
      (Math.sin (t * ToNumber (prop (orbitSpeed e))) * ToNumber (prop (orbitRadius e))
       + Math.sin (t * ToNumber (prop (orbitSpeed data)))
         * ToNumber (prop (orbitRadius data)))%js.
Proof.
  intros Hp He. rewrite resolvedPosition_from_mount.
  rewrite (Planet_frame_child registry data t _ e Hp He).
  cbn [state_of THREE.position].
  rewrite Planet_mount_position_y. reflexivity.
Qed.

(** A body that neither orbits nor has a parent stays where it was mounted. *)
Lemma resolvedPosition_still (registry : object Body) (data : Body)
    (earlier : list number) (t : number) :
  root_orbit data = false ->
  truthy_string (parent data) = false ->
  resolvedPosition registry data earlier t = vector_of (position data).
Proof.
  intros Hr Hp. rewrite resolvedPosition_from_mount.
  rewrite (Planet_frame_still registry data t _ Hr Hp). reflexivity.
Qed.

Lemma root_orbit_zero (data : Body) :
  orbitRadius data = Some 0 -> root_orbit data = false.
Proof.
  intros Hr. unfold root_orbit. rewrite Hr. cbn [prop ToBoolean truthy_number].
  destruct (Req_dec_T 0 0); [ reflexivity | lra ].
Qed.

(** C5, as the code has it.  A body with an [orbitRadius] other than 0
    and no parent is put, by the frame callback run at any simulation time
    [t] and after any earlier frames, at
    [(cos (t * orbitSpeed) * orbitRadius, basePosition.y,
      sin (t * orbitSpeed) * orbitRadius)]: a circle in the horizontal plane
    about the global origin.  An [orbitRadius] of 0 counts as none: the
    body stays at its base position.  The callback always completes. *)
Theorem root_orbit_position (registry : object Body) (data : Body) (r : R)
    (earlier : list number) (t : number) :
  orbitRadius data = Some r ->
  truthy_string (parent data) = false ->
  completes (Planet_frame registry data t
               (Planet_frames registry data earlier (Planet_mount data))) = true
  /\ (r <> 0 ->
      resolvedPosition registry data earlier t
      = THREE.mkVector3
          (Math.cos (t * ToNumber (prop (orbitSpeed data))) * Num r)%js
          (Num (basePosition_y data))
          (Math.sin (t * ToNumber (prop (orbitSpeed data))) * Num r)%js)
  /\ (r = 0 ->
      resolvedPosition registry data earlier t = vector_of (position data)).
Proof.
  intros Hr Hp. split; [ | split ].
  - rewrite Planet_frame_completes, Hp. reflexivity.
  - intros Hnz.
    rewrite (resolvedPosition_root registry data earlier t
               (root_orbit_intro data r Hr Hnz Hp)), Hr.
    reflexivity.
  - intros ->. apply resolvedPosition_still; [ | exact Hp ].
    apply root_orbit_zero. exact Hr.
Qed.

Lemma root_orbit_position_witness :
  completes (Planet_frame planetaryData earth (Num 0.02)
               (Planet_frames planetaryData earth [Num 0.01] (Planet_mount earth)))
  = true
  /\ resolvedPosition planetaryData earth [Num 0.01] (Num 0.02)
     = THREE.mkVector3
         (Math.cos (Num 0.02 * ToNumber (prop (orbitSpeed earth))) * Num 30)%js
         (Num (basePosition_y earth))
         (Math.sin (Num 0.02 * ToNumber (prop (orbitSpeed earth))) * Num 30)%js
  /\ resolvedPosition planetaryData still_planet [Num 0.01] (Num 0.02)
     = vector_of (position still_planet).
Proof.
  destruct (root_orbit_position planetaryData earth 30 [Num 0.01] (Num 0.02)
              eq_refl eq_refl) as (Hc & Hmove & _).
  destruct (root_orbit_position planetaryData still_planet 0 [Num 0.01]
              (Num 0.02) eq_refl eq_refl) as (_ & _ & Hstill).
  split; [ exact Hc | split ].
  - apply Hmove. lra.
  - apply Hstill. reflexivity.
Defined.

(** C5, as the specification words it, fails for an [orbitRadius] of 0: a
    body without a parent, with [orbitRadius = 0] and base position
    [(5, 1, 2)], is left at [(5, 1, 2)] at every time, where the formula of
    the claim gives [(0, 1, 0)] (or [NaN] for [x] and [z] when the time is
    not a number). *)
Lemma zero_radius_counterexample :
  orbitRadius still_planet = Some 0
  /\ parent still_planet = None
  /\ forall (earlier : list number) (t : number),
       resolvedPosition planetaryData still_planet earlier t
       = THREE.mkVector3 (Num 5) (Num 1) (Num 2)
       /\ resolvedPosition planetaryData still_planet earlier t
          <> THREE.mkVector3
               (Math.cos (t * ToNumber (prop (orbitSpeed still_planet))) * Num 0)%js
               (Num (basePosition_y still_planet))
               (Math.sin (t * ToNumber (prop (orbitSpeed still_planet))) * Num 0)%js.
Proof.
  split; [ reflexivity | split; [ reflexivity | ] ].
  intros earlier t.
  assert (H : resolvedPosition planetaryData still_planet earlier t
              = THREE.mkVector3 (Num 5) (Num 1) (Num 2)).
  { rewrite (resolvedPosition_still planetaryData still_planet earlier t).
    - reflexivity.
    - apply root_orbit_zero. reflexivity.
    - reflexivity. }
  split; [ exact H | ].
  rewrite H. intros Heq. apply (f_equal THREE.x) in Heq. cbn in Heq.
  destruct t as [|tau]; cbn in Heq; [ discriminate | ].
  injection Heq as Heq. lra.
Qed.

(** C1, as the code has it.  A body with a parent is placed relative to
    [planetaryData.earth], whichever body its [parent] names: with
    [earthX = cos (t * earth.orbitSpeed) * earth.orbitRadius] and
    [earthZ = sin (t * earth.orbitSpeed) * earth.orbitRadius] the callback
    sets [x = earthX + cos (t * orbitSpeed) * orbitRadius] and
    [z = earthZ + sin (t * orbitSpeed) * orbitRadius], and [y] stays the
    body's own [basePosition.y].  When the parent is ["earth"], Earth has an
    [orbitRadius] and both base positions have the same height, this is the
    position that the rule of the specification gives. *)
Theorem child_orbit_position (registry : object Body) (data e : Body)
    (earlier : list number) (t : number) :
  truthy_string (parent data) = true ->
  get "earth" registry = Some e ->
  completes (Planet_frame registry data t
               (Planet_frames registry data earlier (Planet_mount data))) = true
  /\ resolvedPosition registry data earlier t
     = THREE.mkVector3
         (Math.cos (t * ToNumber (prop (orbitSpeed e))) * ToNumber (prop (orbitRadius e))
          + Math.cos (t * ToNumber (prop (orbitSpeed data)))
            * ToNumber (prop (orbitRadius data)))%js
         (Num (basePosition_y data))
         (Math.sin (t * ToNumber (prop (orbitSpeed e))) * ToNumber (prop (orbitRadius e))
          + Math.sin (t * ToNumber (prop (orbitSpeed data)))
            * ToNumber (prop (orbitRadius data)))%js
  /\ (parent data = Some "earth"%string ->
      orbitRadius e <> None ->
      basePosition_y e = basePosition_y data ->
      spec_resolve registry t data = Some (resolvedPosition registry data earlier t)).
Proof.
  intros Hp He.
  pose proof (resolvedPosition_child registry data e earlier t Hp He) as Hpos.
  split; [ | split ].
  - rewrite Planet_frame_completes, He. apply orb_true_r.
  - exact Hpos.
  - intros Hname Hre Hy. rewrite Hpos.
    unfold spec_resolve. rewrite Hname, He.
    unfold spec_own_position.
    destruct (orbitRadius e) as [re|] eqn:Hore; [ | contradiction ].
    cbn [THREE.x THREE.y THREE.z prop ToNumber JS.add].
    rewrite Hy, Rplus_0_r. reflexivity.
Qed.

Lemma child_orbit_position_witness :
  completes (Planet_frame planetaryData moon (Num 0.02)
               (Planet_frames planetaryData moon [Num 0.01] (Planet_mount moon)))
  = true
  /\ resolvedPosition planetaryData moon [Num 0.01] (Num 0.02)
     = THREE.mkVector3
         (Math.cos (Num 0.02 * Num 0.01) * Num 30
          + Math.cos (Num 0.02 * Num 0.05) * Num 4)%js
         (Num 0)
         (Math.sin (Num 0.02 * Num 0.01) * Num 30
          + Math.sin (Num 0.02 * Num 0.05) * Num 4)%js
  /\ spec_resolve planetaryData (Num 0.02) moon
     = Some (resolvedPosition planetaryData moon [Num 0.01] (Num 0.02)).
Proof.
  destruct (child_orbit_position planetaryData moon earth [Num 0.01] (Num 0.02)
              eq_refl eq_refl) as (Hc & Hpos & Hspec).
  split; [ exact Hc | split; [ exact Hpos | ] ].
  apply Hspec.
  - reflexivity.
  - discriminate.
  - reflexivity.
Defined.

(** C1, as the specification words it, fails: for a moon of Venus the code
    still adds the offset to Earth's position.  At time 0, Earth is at
    [x = 30] and Venus at [x = 22]; the moon (orbit radius 2) is put at
    [x = 32], where looking its parent up would give [x = 24]. *)
Lemma parent_lookup_counterexample :
  truthy_string (parent venus_moon) = true
  /\ get "venus" planetaryData_venus_moon = Some venus
  /\ THREE.x (resolvedPosition planetaryData_venus_moon venus_moon [] (Num 0))
     = Num 32
  /\ (exists p, spec_resolve planetaryData_venus_moon (Num 0) venus_moon = Some p
                /\ THREE.x p = Num 24)
  /\ spec_resolve planetaryData_venus_moon (Num 0) venus_moon
     <> Some (resolvedPosition planetaryData_venus_moon venus_moon [] (Num 0)).
Proof.
  assert (Hcode : THREE.x (resolvedPosition planetaryData_venus_moon venus_moon
                             [] (Num 0)) = Num 32).
  { rewrite (resolvedPosition_child planetaryData_venus_moon venus_moon earth []
               (Num 0) eq_refl eq_refl).
    cbn. f_equal. rewrite !Rmult_0_l, cos_0. lra. }
  assert (Hspec : exists p,
             spec_resolve planetaryData_venus_moon (Num 0) venus_moon = Some p
             /\ THREE.x p = Num 24).
  { eexists. split; [ reflexivity | ].
    cbn. f_equal. rewrite !Rmult_0_l, cos_0. lra. }
  repeat split; try reflexivity; try assumption.
  destruct Hspec as (p & Hp & Hx). rewrite Hp. intros Heq.
  injection Heq as Heq. rewrite Heq, Hcode in Hx.
  injection Hx as Hx. lra.
Qed.

(** The squared radius of a point on the circle. *)
Lemma circle_radius (a r : R) :
  sqrt ((cos a * r - 0) * (cos a * r - 0) + (sin a * r - 0) * (sin a * r - 0))
  = Rabs r.
Proof.
  rewrite <- sqrt_Rsqr_abs. f_equal.
  pose proof (sin2_cos2 a) as H. unfold Rsqr in *. nra.
Qed.

(** C6, as the code has it.  For a body with an [orbitRadius] other than
    0 and an [orbitSpeed] and no parent, at every simulation time the
    distance of the resolved position from the global origin, measured in
    the horizontal plane, is the absolute value of [orbitRadius]; the
    height stays [basePosition.y].  Hence the distance in space is
    [orbitRadius] when [basePosition.y] is 0 and [orbitRadius] is positive,
    as for every planet of the registry.  With an [orbitRadius] of 0 the
    body stays at its base position, at whatever distance that is. *)
Theorem root_orbit_distance (registry : object Body) (data : Body) (r w : R)
    (earlier : list number) (tau : R) :
  orbitRadius data = Some r ->
  orbitSpeed data = Some w ->
  truthy_string (parent data) = false ->
  (r <> 0 ->
   horizontal_distance (resolvedPosition registry data earlier (Num tau)) origin
   = Num (Rabs r)
   /\ THREE.y (resolvedPosition registry data earlier (Num tau))
      = Num (basePosition_y data)
   /\ (basePosition_y data = 0 -> 0 < r ->
       distance (resolvedPosition registry data earlier (Num tau)) origin
       = Num r))
  /\ (r = 0 ->
      resolvedPosition registry data earlier (Num tau)
      = vector_of (position data)).
Proof.
  intros Hr Hw Hp. split.
  - intros Hnz.
    rewrite (resolvedPosition_root registry data earlier (Num tau)
               (root_orbit_intro data r Hr Hnz Hp)).
    rewrite Hr, Hw. cbn. split; [ | split ].
    + f_equal. apply circle_radius.
    + reflexivity.
    + intros Hy Hpos. f_equal. rewrite Hy.
      replace ((0 - 0) * (0 - 0)) with 0 by lra.
      rewrite Rplus_0_r.
      replace (cos (tau * w) * r - 0) with (cos (tau * w) * r) by lra.
      replace (sin (tau * w) * r - 0) with (sin (tau * w) * r) by lra.
      apply sqrt_lem_1.
      * nra.
      * lra.
      * pose proof (sin2_cos2 (tau * w)) as H. unfold Rsqr in H. nra.
  - intros ->. apply resolvedPosition_still; [ | exact Hp ].
    apply root_orbit_zero. exact Hr.
Qed.

Lemma root_orbit_distance_witness :
  horizontal_distance (resolvedPosition planetaryData earth [Num 0] (Num 7)) origin
  = Num (Rabs 30)
  /\ distance (resolvedPosition planetaryData earth [Num 0] (Num 7)) origin
     = Num 30
  /\ resolvedPosition planetaryData still_planet [Num 0] (Num 7)
     = vector_of (position still_planet).
Proof.
  destruct (root_orbit_distance planetaryData earth 30 0.01 [Num 0] 7
              eq_refl eq_refl eq_refl) as (Hmove & _).
  destruct (root_orbit_distance planetaryData still_planet 0 0.01 [Num 0] 7
              eq_refl eq_refl eq_refl) as (_ & Hstill).
  destruct Hmove as (Hh & _ & Hd); [ lra | ].
  split; [ exact Hh | split ].
  - apply Hd; [ reflexivity | lra ].
  - apply Hstill. reflexivity.
Defined.

(** C6, as the specification words it, fails for a body whose base
    position is not in the orbital plane: with [orbitRadius = 3] and
    [position = [3, 4, 0]] the resolved position is at distance 5 from the
    origin at every time.  It fails for an [orbitRadius] of 0 as well: with
    the base position [(5, 1, 2)] the body stays there, at a horizontal
    distance from the origin that is not 0. *)
Lemma origin_distance_counterexample :
  orbitRadius raised_planet = Some 3
  /\ parent raised_planet = None
  /\ (forall tau : R,
        distance (resolvedPosition planetaryData raised_planet [] (Num tau)) origin
        = Num 5
        /\ distance (resolvedPosition planetaryData raised_planet [] (Num tau))
                    origin
           <> Num 3)
  /\ orbitRadius still_planet = Some 0
  /\ parent still_planet = None
  /\ (forall tau : R,
        horizontal_distance
          (resolvedPosition planetaryData still_planet [] (Num tau)) origin
        <> Num 0
        /\ distance (resolvedPosition planetaryData still_planet [] (Num tau))
                    origin
           <> Num 0).
Proof.
  split; [ reflexivity | split; [ reflexivity | ] ].
  split.
  { intros tau.
    assert (Hd : distance (resolvedPosition planetaryData raised_planet []
                             (Num tau)) origin = Num 5).
    { rewrite (resolvedPosition_root planetaryData raised_planet [] (Num tau)).
      - cbn. f_equal. apply sqrt_lem_1.
        + nra.
        + lra.
        + pose proof (sin2_cos2 (tau * 0.01)) as H. unfold Rsqr in H. nra.
      - apply (root_orbit_intro raised_planet 3);
          [ reflexivity | lra | reflexivity ]. }
    split; [ exact Hd | ].
    rewrite Hd. intros H. injection H as H. lra. }
  split; [ reflexivity | split; [ reflexivity | ] ].
  intros tau.
  rewrite (resolvedPosition_still planetaryData still_planet [] (Num tau)
             (root_orbit_zero still_planet eq_refl) eq_refl).
  cbn. split; intros H; injection H as H.
  - apply sqrt_eq_0 in H; nra.
  - apply sqrt_eq_0 in H; nra.
Qed.


(** ** Frame effects *)

Lemma Planets_useFrame_invariant (I : Body * THREE.Object3D -> Prop)
    (registry : object Body) (t : number) :
  (forall data m, I (data, m) ->
                  I (data, state_of (Planet_frame registry data t m))) ->
  forall ps, Forall I ps ->
             Forall I (state_of (Planets_useFrame registry t ps)).
Proof.
  intros Hstep ps Hps. induction Hps as [|[data m] rest Hp Hrest IH];
    cbn [Planets_useFrame].
  - constructor.
  - specialize (Hstep data m Hp).
    destruct (Planet_frame registry data t m) as [m'|m']; cbn in Hstep |- *.
    + destruct (Planets_useFrame registry t rest) as [r|r]; cbn in IH |- *;
        constructor; assumption.
    + constructor; assumption.
Qed.

Lemma frame_invariant (I : Body * THREE.Object3D -> Prop)
    (registry : object Body) :
  (forall t data m, I (data, m) ->
                    I (data, state_of (Planet_frame registry data t m))) ->
  forall settings s, Forall I (planets s) ->
                     Forall I (planets (state_of (frame registry settings s))).
Proof.
  intros Hstep settings s Hs. unfold frame.
  pose proof (Planets_useFrame_invariant I registry (time s) (Hstep (time s))
                (planets s) Hs) as H.
  destruct (Planets_useFrame registry (time s) (planets s)); exact H.
Qed.

Lemma frames_invariant (I : Body * THREE.Object3D -> Prop)
    (registry : object Body) :
  (forall t data m, I (data, m) ->
                    I (data, state_of (Planet_frame registry data t m))) ->
  forall ss s, Forall I (planets s) ->
               Forall I (planets (frames registry ss s)).
Proof.
  intros Hstep ss. induction ss as [|settings ss IH]; intros s Hs; cbn [frames].
  - exact Hs.
  - apply IH. apply frame_invariant; assumption.
Qed.

Lemma mount_at_base_height (registry : object Body) :
  Forall at_base_height (planets (SolarSystemScene_mount registry)).
Proof.
  unfold SolarSystemScene_mount. cbn [planets].
  apply Forall_forall. intros p Hin. apply in_map_iff in Hin.
  destruct Hin as (b & <- & _). apply Planet_mount_position_y.
Qed.

(** C10.  The frame callback of a planet writes the [x] and [z] of the
    position and the [y] of the rotation only: the height of the position
    and the other two rotation angles are as before, whichever branch is
    taken and also when the callback throws.  So the height of every mesh is
    [basePosition.y] after any frames of one planet, and for every planet
    of the scene after any run of frames from mounting. *)
Theorem frame_keeps_height :
  (forall registry data t m,
      THREE.y (THREE.position (state_of (Planet_frame registry data t m)))
      = THREE.y (THREE.position m)
      /\ THREE.x (THREE.rotation (state_of (Planet_frame registry data t m)))
         = THREE.x (THREE.rotation m)
      /\ THREE.z (THREE.rotation (state_of (Planet_frame registry data t m)))
         = THREE.z (THREE.rotation m))
  /\ (forall registry data times,
         THREE.y (THREE.position
                    (Planet_frames registry data times (Planet_mount data)))
         = Num (basePosition_y data))
  /\ (forall registry ss,
         Forall at_base_height
           (planets (frames registry ss (SolarSystemScene_mount registry)))).
Proof.
  split; [ | split ].
  - intros registry data t m.
    rewrite Planet_frame_position_y, Planet_frame_rotation. auto.
  - intros registry data times.
    rewrite Planet_frames_position_y. apply Planet_mount_position_y.
  - intros registry ss. apply frames_invariant.
    + intros t data m H. unfold at_base_height in *. cbn [fst snd] in *.
      rewrite Planet_frame_position_y. exact H.
    + apply mount_at_base_height.
Qed.

(** ** The simulation clock *)

Lemma frame_time (registry : object Body) (settings : object value) (s : Scene) :
  time (state_of (frame registry settings s))
  = if completes (frame registry settings s)
    then SolarSystemScene_useFrame settings (time s)
    else time s.
Proof.
  unfold frame.
  destruct (Planets_useFrame registry (time s) (planets s)); reflexivity.
Qed.

Lemma times_of_head (registry : object Body) (ss : list (object value)) (s : Scene) :
  exists rest, times_of registry ss s = time s :: rest.
Proof. destruct ss; cbn; eauto. Qed.

Lemma times_of_nondecreasing (registry : object Body) (ss : list (object value)) :
  Forall nonnegative_speed ss ->
  forall s t, time s = Num t -> nondecreasing (times_of registry ss s).
Proof.
  induction 1 as [|settings ss (v & Hv & Hpos) Hss IH]; intros s t Ht.
  - cbn. rewrite Ht. exact I.
  - cbn [times_of].
    assert (Hnext : exists t', time (state_of (frame registry settings s)) = Num t'
                               /\ t <= t').
    { rewrite frame_time. destruct (completes (frame registry settings s)).
      - unfold SolarSystemScene_useFrame. fold (timeSpeed_of settings).
        rewrite Ht, Hv. cbn. eexists. split; [ reflexivity | nra ].
      - exists t. split; [ assumption | lra ]. }
    destruct Hnext as (t' & Ht' & Hle).
    specialize (IH _ _ Ht').
    destruct (times_of_head registry ss (state_of (frame registry settings s)))
      as (rest & Hrest).
    rewrite Hrest in IH |- *. rewrite Ht, Ht' in *.
    cbn. split; assumption.
Qed.

(** C8.  The simulation time is 0 at mounting; a frame that runs to its
    end advances it once, by [timeSpeed * 0.01] (a frame cut short by a
    TypeError leaves it as it was); and along any run of frames whose
    [timeSpeed] is a number that is not negative at every advance, the time
    after each frame is at least the time before it. *)
Theorem simulation_clock :
  (forall registry, time (SolarSystemScene_mount registry) = Num 0)
  /\ (forall registry settings s,
         completes (frame registry settings s) = true ->
         time (state_of (frame registry settings s))
         = (time s + timeSpeed_of settings * Num 0.01)%js)
  /\ (forall registry settings s,
         completes (frame registry settings s) = false ->
         time (state_of (frame registry settings s)) = time s)
  /\ (forall registry ss s t,
         time s = Num t ->
         Forall nonnegative_speed ss ->
         nondecreasing (times_of registry ss s))
  /\ (forall registry ss,
         Forall nonnegative_speed ss ->
         nondecreasing (times_of registry ss (SolarSystemScene_mount registry))).
Proof.
  repeat split.
  - intros registry settings s H. rewrite frame_time, H. reflexivity.
  - intros registry settings s H. rewrite frame_time, H. reflexivity.
  - intros registry ss s t Ht Hss. eapply times_of_nondecreasing; eauto.
  - intros registry ss Hss.
    eapply times_of_nondecreasing; [ exact Hss | reflexivity ].
Qed.

Lemma nonnegative_speed_default : nonnegative_speed simulationSettings.
Proof. exists 1. split; [ reflexivity | lra ]. Qed.

Lemma nonnegative_speed_zero :
  nonnegative_speed (spread_set simulationSettings "timeSpeed" (Number (Num 0))).
Proof. exists 0. split; [ reflexivity | lra ]. Qed.

(** ** Frames that run to their end *)

Lemma completes_Done {A : Type} (o : outcome A) :
  completes o = true -> o = Done (state_of o).
Proof. destruct o; [ reflexivity | discriminate ]. Qed.

Lemma Planets_useFrame_safe (registry : object Body) (t : number)
    (ps : list (Body * THREE.Object3D)) :
  frame_safe registry ps = true ->
  Planets_useFrame registry t ps = Done (map (advance registry t) ps).
Proof.
  unfold frame_safe. induction ps as [|[data m] rest IH]; intros Hsafe;
    cbn [Planets_useFrame map].
  - reflexivity.
  - assert (Hc : completes (Planet_frame registry data t m) = true).
    { rewrite Planet_frame_completes.
      destruct (get "earth" registry); [ apply orb_true_r | ].
      cbn in Hsafe. apply andb_prop in Hsafe. destruct Hsafe as [-> _].
      reflexivity. }
    rewrite (completes_Done _ Hc).
    rewrite IH.
    + reflexivity.
    + destruct (get "earth" registry); [ reflexivity | ].
      cbn in Hsafe. apply andb_prop in Hsafe. tauto.
Qed.

Lemma frame_safe_advance (registry : object Body) (t : number)
    (ps : list (Body * THREE.Object3D)) :
  frame_safe registry (map (advance registry t) ps) = frame_safe registry ps.
Proof.
  unfold frame_safe. destruct (get "earth" registry); [ reflexivity | ].
  induction ps as [|p rest IH]; cbn; [ reflexivity | ].
  rewrite IH. reflexivity.
Qed.

Lemma frame_safe_Done (registry : object Body) (settings : object value)
    (s : Scene) :
  frame_safe registry (planets s) = true ->
  frame registry settings s
  = Done (mkScene (SolarSystemScene_useFrame settings (time s))
                  (map (advance registry (time s)) (planets s))).
Proof.
  intros Hsafe. unfold frame.
  rewrite (Planets_useFrame_safe registry (time s) (planets s) Hsafe).
  reflexivity.
Qed.

Lemma frame_safe_mount (registry : object Body) (e : Body) :
  get "earth" registry = Some e ->
  frame_safe registry (planets (SolarSystemScene_mount registry)) = true.
Proof. intros He. unfold frame_safe. rewrite He. reflexivity. Qed.

Lemma simulation_clock_witness :
  time (SolarSystemScene_mount planetaryData) = Num 0
  /\ time (state_of (frame planetaryData simulationSettings
                       (SolarSystemScene_mount planetaryData)))
     = (Num 0 + Num 1 * Num 0.01)%js
  /\ nondecreasing
       (times_of planetaryData
          [ simulationSettings;
            spread_set simulationSettings "timeSpeed" (Number (Num 0));
            simulationSettings ]
          (SolarSystemScene_mount planetaryData)).
Proof.
  destruct simulation_clock as (H0 & Hstep & _ & _ & Hmono).
  split; [ apply H0 | split ].
  - apply (Hstep planetaryData simulationSettings
             (SolarSystemScene_mount planetaryData)).
    rewrite (frame_safe_Done planetaryData simulationSettings _
               (frame_safe_mount planetaryData earth eq_refl)).
    reflexivity.
  - apply Hmono.
    repeat constructor;
      first [ exact nonnegative_speed_default | exact nonnegative_speed_zero ].
Defined.


(** ** The settings object *)

Lemma get_cons_other {V : Type} (k key' : string) (v : V) (o : object V) :
  k <> key' -> get key' ((k, v) :: o) = get key' o.
Proof.
  intros Hne. cbn [get]. apply String.eqb_neq in Hne. rewrite Hne. reflexivity.
Qed.

Lemma get_cons_same {V : Type} (key : string) (v : V) (o : object V) :
  get key ((key, v) :: o) = Some v.
Proof. cbn [get]. rewrite String.eqb_refl. reflexivity. Qed.

Lemma get_replace_value_same {V : Type} (o : object V) (key : string) (v : V) :
  get key o <> None -> get key (replace_value o key v) = Some v.
Proof.
  induction o as [|[k w] rest IH]; cbn [get replace_value]; [ contradiction | ].
  destruct (String.eqb k key) eqn:E; cbn [get]; rewrite E;
    [ reflexivity | exact IH ].
Qed.

Lemma get_replace_value_other {V : Type} (o : object V) (key key' : string)
    (v : V) :
  key <> key' -> get key' (replace_value o key v) = get key' o.
Proof.
  intros Hne. induction o as [|[k w] rest IH]; cbn [get replace_value];
    [ reflexivity | ].
  destruct (String.eqb k key) eqn:E; cbn [get].
  - apply String.eqb_eq in E. subst k.
    apply String.eqb_neq in Hne. rewrite Hne. reflexivity.
  - rewrite IH. reflexivity.
Qed.

Lemma get_insert_index_same {V : Type} (o : object V) (i : N) (key : string)
    (v : V) :
  get key o = None -> get key (insert_index i key v o) = Some v.
Proof.
  induction o as [|[k w] rest IH]; intros Hnone; cbn [get] in Hnone;
    cbn [insert_index].
  - apply get_cons_same.
  - destruct (String.eqb k key) eqn:E; [ discriminate | ].
    destruct (array_index k) as [j|]; [ destruct (N.ltb j i) | ];
      try apply get_cons_same.
    cbn [get]. rewrite E. apply IH. exact Hnone.
Qed.

Lemma get_insert_index_other {V : Type} (o : object V) (i : N)
    (key key' : string) (v : V) :
  key <> key' -> get key' (insert_index i key v o) = get key' o.
Proof.
  intros Hne. induction o as [|[k w] rest IH]; cbn [insert_index].
  - apply get_cons_other. exact Hne.
  - destruct (array_index k) as [j|]; [ destruct (N.ltb j i) | ];
      try (apply get_cons_other; exact Hne).
    cbn [get]. rewrite IH. reflexivity.
Qed.

Lemma get_app_new {V : Type} (o : object V) (key key' : string) (v : V) :
  get key' (o ++ [(key, v)])
  = match get key' o with
    | Some w => Some w
    | None => if String.eqb key key' then Some v else None
    end.
Proof.
  induction o as [|[k w] rest IH]; cbn [app get]; [ reflexivity | ].
  destruct (String.eqb k key'); [ reflexivity | exact IH ].
Qed.

Lemma get_spread_set_same {V : Type} (o : object V) (key : string) (v : V) :
  get key (spread_set o key v) = Some v.
Proof.
  unfold spread_set. destruct (get key o) as [w|] eqn:Hget.
  - apply get_replace_value_same. rewrite Hget. discriminate.
  - destruct (array_index key) as [i|].
    + apply get_insert_index_same. exact Hget.
    + rewrite get_app_new, Hget, String.eqb_refl. reflexivity.
Qed.

Lemma get_spread_set_other {V : Type} (o : object V) (key key' : string) (v : V) :
  key <> key' -> get key' (spread_set o key v) = get key' o.
Proof.
  intros Hne. unfold spread_set. destruct (get key o) as [w|] eqn:Hget.
  - apply get_replace_value_other. exact Hne.
  - destruct (array_index key) as [i|].
    + apply get_insert_index_other. exact Hne.
    + rewrite get_app_new. apply String.eqb_neq in Hne. rewrite Hne.
      destruct (get key' o); reflexivity.
Qed.

Lemma field_handleSettingChange (key : string) (v : value)
    (st : PlanetarySystem_state) :
  field key (settings (handleSettingChange key v st)) = v.
Proof.
  unfold field, handleSettingChange. cbn [settings].
  rewrite get_spread_set_same. reflexivity.
Qed.

Lemma zero_speed_set (st : PlanetarySystem_state) :
  zero_speed (settings (handleSettingChange "timeSpeed" (Number (Num 0)) st)).
Proof.
  unfold zero_speed, timeSpeed_of. rewrite field_handleSettingChange. reflexivity.
Qed.

(** ** Frozen time *)

Lemma iter_map {A : Type} (f : A -> A) (n : nat) (l : list A) :
  Nat.iter n (map f) l = map (Nat.iter n f) l.
Proof.
  induction n as [|n IH].
  - symmetry. apply map_id.
  - rewrite Nat.iter_succ, IH, map_map. apply map_ext. intros a.
    rewrite Nat.iter_succ. reflexivity.
Qed.

Section Advance.

Variable registry : object Body.
Variable t : number.

Lemma advance_fst (n : nat) (p : Body * THREE.Object3D) :
  fst (Nat.iter n (advance registry t) p) = fst p.
Proof.
  induction n as [|n IH]; [ reflexivity | ].
  rewrite Nat.iter_succ. exact IH.
Qed.

Lemma advance_position_again (p : Body * THREE.Object3D) :
  THREE.position (snd (advance registry t (advance registry t p)))
  = THREE.position (snd (advance registry t p)).
Proof. unfold advance. cbn [fst snd]. apply Planet_frame_position_again. Qed.

(** From the first frame on, the position no longer changes. *)
Lemma advance_position (n : nat) (p : Body * THREE.Object3D) :
  THREE.position (snd (Nat.iter (S n) (advance registry t) p))
  = THREE.position (snd (advance registry t p)).
Proof.
  induction n as [|n IH]; [ reflexivity | ].
  rewrite Nat.iter_succ. rewrite Nat.iter_succ in IH |- *.
  rewrite advance_position_again. exact IH.
Qed.

(** Every frame adds [rotationSpeed] to the spin. *)
Lemma advance_spin (n : nat) (p : Body * THREE.Object3D) :
  THREE.y (THREE.rotation (snd (Nat.iter n (advance registry t) p)))
  = spin_after n p.
Proof.
  unfold spin_after. induction n as [|n IH]; [ reflexivity | ].
  rewrite !Nat.iter_succ, <- IH.
  unfold advance at 1. cbn [snd].
  rewrite Planet_frame_rotation. cbn [THREE.y].
  rewrite advance_fst. reflexivity.
Qed.

End Advance.

Lemma zero_speed_time (settings : object value) (t : number) :
  zero_speed settings -> SolarSystemScene_useFrame settings t = t.
Proof.
  unfold zero_speed, SolarSystemScene_useFrame, timeSpeed_of. intros ->.
  destruct t as [|r]; cbn; [ reflexivity | ]. f_equal. lra.
Qed.

Lemma frames_zero_speed (registry : object Body) (ss : list (object value)) :
  Forall zero_speed ss ->
  forall s, frame_safe registry (planets s) = true ->
  frames registry ss s
  = mkScene (time s)
      (map (Nat.iter (List.length ss) (advance registry (time s))) (planets s)).
Proof.
  induction 1 as [|settings ss Hz Hss IH]; intros s Hsafe; cbn [frames List.length].
  - destruct s as [t ps]. cbn. rewrite map_id. reflexivity.
  - rewrite (frame_safe_Done registry settings s Hsafe). cbn [state_of].
    rewrite IH by (cbn [planets]; rewrite frame_safe_advance; exact Hsafe).
    cbn [time planets]. rewrite (zero_speed_time settings _ Hz).
    f_equal. rewrite map_map. apply map_ext. intros p.
    rewrite <- Nat.iter_succ_r. reflexivity.
Qed.

(** C4, as the code has it.  Setting [timeSpeed] to 0 makes the speed in
    force 0; and while it is 0, whatever the other settings and however
    many frames are rendered:
    every frame runs to its end (given that no callback reads a missing
    [planetaryData.earth]), the simulation time stays what it was, every
    frame resolves every body to the same position, the one that belongs to
    that time, so that from the first of these frames on no mesh moves (and
    none moves at all when the meshes already are where that time puts
    them); and the spin of every body has advanced by its [rotationSpeed]
    once for each frame. *)
Theorem frozen_time_spin (registry : object Body) (ss : list (object value))
    (s : Scene) :
  Forall zero_speed ss ->
  frame_safe registry (planets s) = true ->
  (forall st, zero_speed (settings (handleSettingChange "timeSpeed"
                                      (Number (Num 0)) st)))
  /\ (forall settings,
         completes (frame registry settings (frames registry ss s)) = true)
  /\ time (frames registry ss s) = time s
  /\ positions_at_time registry (frames registry ss s)
     = positions_at_time registry s
  /\ (ss <> [] -> positions (frames registry ss s) = positions_at_time registry s)
  /\ (positions s = positions_at_time registry s ->
      positions (frames registry ss s) = positions s)
  /\ spins (frames registry ss s) = map (spin_after (List.length ss)) (planets s).
Proof.
  intros Hz Hsafe.
  assert (Hpos : ss <> [] ->
                 positions (frames registry ss s) = positions_at_time registry s).
  { intros Hne. rewrite (frames_zero_speed registry ss Hz s Hsafe).
    unfold positions_at_time, positions. cbn [time planets].
    destruct ss as [|settings ss]; [ contradiction | ].
    rewrite map_map. apply map_ext. intros p.
    apply (advance_position registry (time s) (List.length ss) p). }
  split; [ intros st; apply zero_speed_set | ].
  split.
  { intros settings. rewrite (frames_zero_speed registry ss Hz s Hsafe).
    rewrite frame_safe_Done; [ reflexivity | ].
    cbn [planets]. rewrite <- iter_map.
    clear Hz Hpos. induction (List.length ss) as [|n IH].
    - exact Hsafe.
    - rewrite Nat.iter_succ, frame_safe_advance. exact IH. }
  split.
  { rewrite (frames_zero_speed registry ss Hz s Hsafe). reflexivity. }
  split.
  { rewrite (frames_zero_speed registry ss Hz s Hsafe).
    unfold positions_at_time. cbn [time planets].
    rewrite map_map. apply map_ext. intros p.
    apply (advance_position registry (time s) (List.length ss) p). }
  split; [ exact Hpos | ].
  split.
  { intros Hrest. destruct ss as [|settings ss]; [ reflexivity | ].
    rewrite Hrest. apply Hpos. discriminate. }
  rewrite (frames_zero_speed registry ss Hz s Hsafe).
  unfold spins. cbn [planets].
  rewrite map_map. apply map_ext. intros p. apply advance_spin.
Qed.

Lemma frozen_time_spin_witness :
  zero_speed paused_settings
  /\ time (frames planetaryData [paused_settings; paused_settings] after_first_frame)
     = time after_first_frame
  /\ positions (frames planetaryData [paused_settings; paused_settings]
                  after_first_frame)
     = positions_at_time planetaryData after_first_frame
  /\ spins (frames planetaryData [paused_settings; paused_settings]
              after_first_frame)
     = map (spin_after 2) (planets after_first_frame).
Proof.
  assert (Hz : zero_speed paused_settings) by reflexivity.
  assert (Hsafe : frame_safe planetaryData (planets after_first_frame) = true)
    by reflexivity.
  destruct (frozen_time_spin planetaryData [paused_settings; paused_settings]
              after_first_frame (Forall_cons _ Hz (Forall_cons _ Hz (Forall_nil _)))
              Hsafe)
    as (_ & _ & Ht & _ & Hpos & _ & Hspin).
  split; [ exact Hz | split; [ exact Ht | split; [ | exact Hspin ] ] ].
  apply Hpos. discriminate.
Defined.

(** C4, as the specification words it, fails in a running scene: the
    planets read the time of the last render, which the frame before the
    change has already advanced.  One frame after mounting at speed 1 the
    meshes show the positions of time 0 and the time is 0.01; with
    [timeSpeed] then set to 0, the next frame still moves Mercury, from
    [z = 0] to [z = sin (0.01 * 0.02) * 15], which is not 0. *)
Lemma paused_frame_counterexample :
  zero_speed paused_settings
  /\ frame_safe planetaryData (planets after_first_frame) = true
  /\ positions (frames planetaryData [paused_settings] after_first_frame)
     <> positions after_first_frame.
Proof.
  assert (Hsafe : frame_safe planetaryData (planets after_first_frame) = true)
    by reflexivity.
  split; [ reflexivity | split; [ exact Hsafe | ] ].
  intros Heq.
  apply (f_equal (fun l => nth 1 l origin)) in Heq.
  cbn [frames] in Heq.
  rewrite (frame_safe_Done planetaryData paused_settings _ Hsafe) in Heq.
  unfold after_first_frame in Heq.
  rewrite (frame_safe_Done planetaryData simulationSettings _
             (frame_safe_mount planetaryData earth eq_refl)) in Heq.
  cbn [state_of positions planets time map nth SolarSystemScene_mount values snd
       fst planetaryData advance] in Heq.
  pose proof (root_orbit_intro mercury 15 eq_refl ltac:(lra) eq_refl) as Hroot.
  rewrite !(Planet_frame_root planetaryData mercury _ _ Hroot) in Heq.
  cbn [state_of THREE.position] in Heq.
  apply (f_equal THREE.z) in Heq. cbn in Heq. injection Heq as Heq.
  rewrite (Rmult_0_l 0.02), sin_0 in Heq.
  assert (Hsin : 0 < sin ((0 + 1 * 0.01) * 0.02)).
  { apply sin_gt_0; [ lra | ]. pose proof PI2_1. lra. }
  nra.
Qed.

(** ** Composition of the scene *)

Lemma lines_of_Planet (data : Body) (showLabels : value) :
  lines_of (Planet data showLabels) = [].
Proof.
  unfold Planet. cbn [lines_of flat_map app].
  destruct (ToBoolean showLabels); [ destruct (position data) as [[a b] c] | ];
    reflexivity.
Qed.

Lemma bodies_of_Planet (data : Body) (showLabels : value) :
  bodies_of (Planet data showLabels) = [data].
Proof.
  unfold Planet. cbn [bodies_of flat_map app].
  destruct (ToBoolean showLabels); [ destruct (position data) as [[a b] c] | ];
    reflexivity.
Qed.

Lemma lines_of_OrbitPath (radius visible : value) :
  lines_of (OrbitPath radius visible)
  = if ToBoolean visible then [setFromPoints (OrbitPath_points radius)] else [].
Proof. unfold OrbitPath. destruct (ToBoolean visible); reflexivity. Qed.

Lemma or_zero_Num (r : R) : or_zero (Num r) = Num r.
Proof.
  unfold or_zero, truthy_number.
  destruct (Req_dec_T r 0) as [-> | _]; reflexivity.
Qed.

(** The geometry of a guide of numeric radius holds the points as they
    were pushed. *)
Lemma setFromPoints_number (r : R) :
  setFromPoints (OrbitPath_points (Number (Num r)))
  = OrbitPath_points (Number (Num r)).
Proof.
  unfold setFromPoints, OrbitPath_points. rewrite map_map. apply map_ext.
  intros i. unfold OrbitPath_point, JS.div, Math.PI.
  destruct (Req_dec_T 64 0) as [H|_]; [ lra | ].
  cbn. rewrite or_zero_Num. reflexivity.
Qed.

Lemma bodies_of_OrbitPath (radius visible : value) :
  bodies_of (OrbitPath radius visible) = [].
Proof. unfold OrbitPath. destruct (ToBoolean visible); reflexivity. Qed.

Section Composition.

Variable registry : object Body.
Variable settings : object value.

Lemma orbits_lines :
  flat_map lines_of (orbit_elements registry settings)
  = if ToBoolean (field "showOrbits" settings) then root_guides registry else [].
Proof.
  unfold orbit_elements, root_guides. induction (values registry) as [|b bs IH];
    cbn [map flat_map filter].
  - destruct (ToBoolean (field "showOrbits" settings)); reflexivity.
  - rewrite IH. unfold root_orbit.
    destruct (ToBoolean (prop (orbitRadius b))
              && negb (truthy_string (parent b))) eqn:Hroot.
    + rewrite lines_of_OrbitPath.
      destruct (orbitRadius b) as [r|] eqn:Hr; [ | cbn in Hroot; discriminate ].
      cbn [prop]. rewrite setFromPoints_number.
      destruct (ToBoolean (field "showOrbits" settings)); [ | reflexivity ].
      cbn [map app]. rewrite Hr. reflexivity.
    + reflexivity.
Qed.

Lemma orbits_bodies :
  flat_map bodies_of (orbit_elements registry settings) = [].
Proof.
  unfold orbit_elements. induction (values registry) as [|b bs IH]; cbn [map flat_map].
  - reflexivity.
  - rewrite IH.
    destruct (ToBoolean (prop (orbitRadius b))
              && negb (truthy_string (parent b))).
    + rewrite bodies_of_OrbitPath. reflexivity.
    + reflexivity.
Qed.

Lemma planet_elements_lines :
  flat_map lines_of (planet_elements registry settings) = [].
Proof.
  unfold planet_elements. induction (values registry) as [|b bs IH];
    cbn [map flat_map].
  - reflexivity.
  - rewrite IH, lines_of_Planet. reflexivity.
Qed.

Lemma planet_elements_bodies :
  flat_map bodies_of (planet_elements registry settings) = values registry.
Proof.
  unfold planet_elements. induction (values registry) as [|b bs IH];
    cbn [map flat_map].
  - reflexivity.
  - rewrite IH, bodies_of_Planet. reflexivity.
Qed.

(** The composition throws exactly when orbits are shown and the registry
    has no [moon]. *)
Lemma SolarSystemScene_throws :
  SolarSystemScene registry settings = None
  <-> ToBoolean (field "showOrbits" settings) = true
      /\ get "moon" registry = None.
Proof.
  unfold SolarSystemScene.
  destruct (ToBoolean (field "showOrbits" settings)).
  - destruct (get "moon" registry); split; intros H;
      try discriminate; try tauto.
    destruct H as [_ H]. discriminate.
  - split; intros H; [ discriminate | destruct H; discriminate ].
Qed.

Lemma SolarSystemScene_guides (scene : list element) :
  SolarSystemScene registry settings = Some scene ->
  orbit_guides scene
  = if ToBoolean (field "showOrbits" settings)
    then root_guides registry
         ++ match get "moon" registry with
            | Some m =>
                [setFromPoints (OrbitPath_points (prop (orbitRadius m)))]
            | None => []
            end
    else [].
Proof.
  unfold SolarSystemScene, orbit_guides.
  fold (orbit_elements registry settings).
fold (planet_elements registry settings).
  destruct (ToBoolean (field "showOrbits" settings)) eqn:Hshow.
  - destruct (get "moon" registry) as [m|]; [ | discriminate ].
    intros [= <-]. cbn [flat_map lines_of app].
    rewrite flat_map_app, orbits_lines, Hshow. cbn [flat_map lines_of app].
    rewrite planet_elements_lines, lines_of_OrbitPath, Hshow.
    rewrite !app_nil_r. reflexivity.
  - intros [= <-]. cbn [flat_map lines_of app].
    rewrite flat_map_app, orbits_lines, Hshow. cbn [flat_map lines_of app].
    apply planet_elements_lines.
Qed.

Lemma SolarSystemScene_bodies (scene : list element) :
  SolarSystemScene registry settings = Some scene ->
  flat_map bodies_of scene = values registry.
Proof.
  unfold SolarSystemScene.
  fold (orbit_elements registry settings).
fold (planet_elements registry settings).
  destruct (ToBoolean (field "showOrbits" settings)) eqn:Hshow.
  - destruct (get "moon" registry) as [m|]; [ | discriminate ].
    intros [= <-]. cbn [flat_map bodies_of app].
    rewrite flat_map_app, orbits_bodies. cbn [flat_map bodies_of app].
    rewrite planet_elements_bodies, bodies_of_OrbitPath. reflexivity.
  - intros [= <-]. cbn [flat_map bodies_of app].
    rewrite flat_map_app, orbits_bodies. cbn [flat_map bodies_of app].
    apply planet_elements_bodies.
Qed.

End Composition.

(** C9.  After [handleSettingChange('showOrbits', false)], whatever the
    registry and the other settings, the composition succeeds and the scene
    holds no orbit guide at all. *)
Theorem no_guides_when_hidden (registry : object Body)
    (st : PlanetarySystem_state) :
  exists scene,
    SolarSystemScene registry
      (settings (handleSettingChange "showOrbits" (Bool false) st)) = Some scene
    /\ orbit_guides scene = [].
Proof.
  destruct (SolarSystemScene registry
              (settings (handleSettingChange "showOrbits" (Bool false) st)))
    as [scene|] eqn:Hscene.
  - exists scene. split; [ reflexivity | ].
    rewrite (SolarSystemScene_guides _ _ _ Hscene).
    rewrite field_handleSettingChange. reflexivity.
  - apply SolarSystemScene_throws in Hscene. destruct Hscene as [H _].
    rewrite field_handleSettingChange in H. discriminate.
Qed.

(** ** The geometry of an orbit guide *)

Lemma OrbitPath_point_number (r : R) (i : nat) :
  OrbitPath_point (Number (Num r)) i
  = THREE.mkVector3 (Num (cos (INR i / 64 * PI * 2) * r))
                    (Num 0)
                    (Num (sin (INR i / 64 * PI * 2) * r)).
Proof.
  unfold OrbitPath_point, JS.div, Math.PI.
  destruct (Req_dec_T 64 0) as [H|_]; [ lra | ]. reflexivity.
Qed.

Lemma OrbitPath_point_angle (v : value) (i : nat) :
  OrbitPath_point v i
  = THREE.mkVector3 (Math.cos (Num (INR i / 64 * PI * 2)) * ToNumber v)%js
                    (Num 0)
                    (Math.sin (Num (INR i / 64 * PI * 2)) * ToNumber v)%js.
Proof.
  unfold OrbitPath_point, JS.div, Math.PI.
  destruct (Req_dec_T 64 0) as [H|_]; [ lra | ]. reflexivity.
Qed.





















(** ** Registries with a parent that does not exist *)

(** C2, as the code has it.  The registry is not validated.  Whatever the
    parents of its bodies name, the composition succeeds, with one planet
    for every body of the registry (given only that the [moon] entry that
    the composition reads exists when orbits are shown); and the frame
    callback of a body with a parent, also one whose parent names no body,
    runs to its end and places the body around [planetaryData.earth]
    (given that this entry exists). *)
Theorem no_registry_validation (registry : object Body)
    (settings : object value) :
  (ToBoolean (field "showOrbits" settings) = true ->
   get "moon" registry <> None) ->
  (exists scene,
      SolarSystemScene registry settings = Some scene
      /\ flat_map bodies_of scene = values registry)
  /\ (forall data e earlier t,
         In data (values registry) ->
         truthy_string (parent data) = true ->
         get "earth" registry = Some e ->
         completes (Planet_frame registry data t
                      (Planet_frames registry data earlier (Planet_mount data)))
         = true
         /\ resolvedPosition registry data earlier t
            = THREE.mkVector3
                (Math.cos (t * ToNumber (prop (orbitSpeed e)))
                 * ToNumber (prop (orbitRadius e))
                 + Math.cos (t * ToNumber (prop (orbitSpeed data)))
                   * ToNumber (prop (orbitRadius data)))%js
                (Num (basePosition_y data))
                (Math.sin (t * ToNumber (prop (orbitSpeed e)))
                 * ToNumber (prop (orbitRadius e))
                 + Math.sin (t * ToNumber (prop (orbitSpeed data)))
                   * ToNumber (prop (orbitRadius data)))%js).
Proof.
  intros Hmoon. split.
  - destruct (SolarSystemScene registry settings) as [scene|] eqn:Hscene.
    + exists scene. split; [ reflexivity | ].
      apply (SolarSystemScene_bodies _ _ _ Hscene).
    + apply SolarSystemScene_throws in Hscene. destruct Hscene as [Hs Hm].
      exfalso. apply (Hmoon Hs Hm).
  - intros data e earlier t _ Hp He. split.
    + rewrite Planet_frame_completes, He. apply orb_true_r.
    + apply resolvedPosition_child; assumption.
Qed.

Lemma no_registry_validation_witness :
  dangling_parent planetaryData_orphan = true
  /\ (exists scene,
         SolarSystemScene planetaryData_orphan simulationSettings = Some scene
         /\ flat_map bodies_of scene = values planetaryData_orphan)
  /\ completes (Planet_frame planetaryData_orphan orphan (Num 0.5)
                  (Planet_frames planetaryData_orphan orphan []
                     (Planet_mount orphan))) = true.
Proof.
  destruct (no_registry_validation planetaryData_orphan simulationSettings)
    as (Hscene & Hframe).
  - intros _. discriminate.
  - split; [ reflexivity | split; [ exact Hscene | ] ].
    apply (Hframe orphan earth [] (Num 0.5)).
    + cbn. tauto.
    + reflexivity.
    + reflexivity.
Defined.

(** C2, as the specification words it, fails: a registry in which Phobos
    names the parent ["mars"], which it does not hold, is composed into a
    scene with a planet for Phobos, and the first frame puts Phobos at
    distance 3 from Earth, at [(33, 0, 0)]. *)
Lemma dangling_parent_counterexample :
  parent orphan = Some "mars"%string
  /\ get "mars" planetaryData_orphan = None
  /\ dangling_parent planetaryData_orphan = true
  /\ (exists scene,
         SolarSystemScene planetaryData_orphan simulationSettings = Some scene
         /\ In orphan (flat_map bodies_of scene))
  /\ completes (frame planetaryData_orphan simulationSettings
                  (SolarSystemScene_mount planetaryData_orphan)) = true
  /\ resolvedPosition planetaryData_orphan orphan [] (Num 0)
     = THREE.mkVector3 (Num 33) (Num 0) (Num 0).
Proof.
  split; [ reflexivity | split; [ reflexivity | split; [ reflexivity | ] ] ].
  split; [ | split ].
  - destruct (SolarSystemScene planetaryData_orphan simulationSettings)
      as [scene|] eqn:Hscene.
    + exists scene. split; [ reflexivity | ].
      rewrite (SolarSystemScene_bodies _ _ _ Hscene). cbn. tauto.
    + apply SolarSystemScene_throws in Hscene. destruct Hscene as [_ H].
      discriminate.
  - rewrite (frame_safe_Done planetaryData_orphan simulationSettings _
               (frame_safe_mount planetaryData_orphan earth eq_refl)).
    reflexivity.
  - rewrite (resolvedPosition_child planetaryData_orphan orphan earth []
               (Num 0) eq_refl eq_refl).
    cbn. rewrite !Rmult_0_l, cos_0, sin_0. f_equal; f_equal; lra.
Qed.

(** * Further properties of the code *)

(** ** The settings object and the selection *)

Lemma replace_value_again {V : Type} (o : object V) (key : string) (v w : V) :
  replace_value (replace_value o key v) key w = replace_value o key w.
Proof.
  induction o as [|[k u] rest IH]; cbn [replace_value]; [ reflexivity | ].
  destruct (String.eqb k key) eqn:E; cbn [replace_value]; rewrite E;
    [ reflexivity | ].
  rewrite IH. reflexivity.
Qed.

Lemma replace_value_inserted {V : Type} (o : object V) (i : N) (key : string)
    (v w : V) :
  get key o = None ->
  replace_value (insert_index i key v o) key w = insert_index i key w o.
Proof.
  induction o as [|[k u] rest IH]; intros Hnone; cbn [get] in Hnone;
    cbn [insert_index].
  - cbn [replace_value]. rewrite String.eqb_refl. reflexivity.
  - destruct (String.eqb k key) eqn:E; [ discriminate | ].
    destruct (array_index k) as [j|]; [ destruct (N.ltb j i) | ];
      cbn [replace_value]; rewrite ?String.eqb_refl; try reflexivity.
    rewrite E, (IH Hnone). reflexivity.
Qed.

Lemma replace_value_appended {V : Type} (o : object V) (key : string) (v w : V) :
  get key o = None ->
  replace_value (o ++ [(key, v)]) key w = o ++ [(key, w)].
Proof.
  induction o as [|[k u] rest IH]; intros Hnone; cbn [get] in Hnone;
    cbn [app replace_value].
  - rewrite String.eqb_refl. reflexivity.
  - destruct (String.eqb k key) eqn:E; [ discriminate | ].
    rewrite (IH Hnone). reflexivity.
Qed.

Lemma spread_set_again {V : Type} (o : object V) (key : string) (v w : V) :
  spread_set (spread_set o key v) key w = spread_set o key w.
Proof.
  unfold spread_set at 1. rewrite get_spread_set_same.
  unfold spread_set. destruct (get key o) as [u|] eqn:Hget.
  - apply replace_value_again.
  - destruct (array_index key) as [i|].
    + apply replace_value_inserted. exact Hget.
    + apply replace_value_appended. exact Hget.
Qed.

Lemma replace_value_current {V : Type} (o : object V) (key : string) (v : V) :
  get key o = Some v -> replace_value o key v = o.
Proof.
  induction o as [|[k u] rest IH]; cbn [get replace_value]; [ discriminate | ].
  destruct (String.eqb k key) eqn:E.
  - intros [= ->]. reflexivity.
  - intros H. rewrite (IH H). reflexivity.
Qed.

Lemma spread_set_current {V : Type} (o : object V) (key : string) (v : V) :
  get key o = Some v -> spread_set o key v = o.
Proof.
  intros H. unfold spread_set. rewrite H. apply replace_value_current. exact H.
Qed.

Lemma keys_replace_value {V : Type} (o : object V) (key : string) (v : V) :
  keys (replace_value o key v) = keys o.
Proof.
  unfold keys. induction o as [|[k u] rest IH]; cbn [replace_value map fst];
    [ reflexivity | ].
  destruct (String.eqb k key); cbn [map fst]; [ reflexivity | ].
  rewrite IH. reflexivity.
Qed.

(** In an object without array indices a new array index comes first. *)
Lemma keys_insert_index_front {V : Type} (o : object V) (i : N) (key : string)
    (v : V) :
  Forall (fun k => array_index k = None) (keys o) ->
  keys (insert_index i key v o) = key :: keys o.
Proof.
  destruct o as [|[k u] rest]; cbn [insert_index keys map fst]; [ reflexivity | ].
  intros H. inversion H as [|? ? Hk _]; subst. cbn [fst] in Hk. rewrite Hk.
  reflexivity.
Qed.

Lemma field_spread_set (o : object value) (key key' : string) (v : value) :
  field key' (spread_set o key v)
  = if String.eqb key key' then v else field key' o.
Proof.
  unfold field. destruct (String.eqb key key') eqn:E.
  - apply String.eqb_eq in E. subst key'. rewrite get_spread_set_same.
    reflexivity.
  - apply String.eqb_neq in E. rewrite (get_spread_set_other o key key' v E).
    reflexivity.
Qed.

(** X1.  After [handleSettingChange(key, value)] the setting [key] reads
    [value], every other setting reads what it read before, and the
    selected planet is the same. *)
Theorem handleSettingChange_reads (key key' : string) (v : value)
    (st : PlanetarySystem_state) :
  field key' (settings (handleSettingChange key v st))
  = (if String.eqb key key' then v else field key' (settings st))
  /\ selectedPlanet (handleSettingChange key v st) = selectedPlanet st.
Proof.
  split; [ | reflexivity ].
  unfold handleSettingChange. cbn [settings]. apply field_spread_set.
Qed.

(** X2.  Of two changes of the same setting the later one wins, as if the
    earlier had not been made; and changing a setting and then giving it
    back the value it had restores the very state. *)
Theorem handleSettingChange_overwrites (key : string) (v w old : value)
    (st : PlanetarySystem_state) :
  handleSettingChange key w (handleSettingChange key v st)
  = handleSettingChange key w st
  /\ (get key (settings st) = Some old ->
      handleSettingChange key old (handleSettingChange key v st) = st).
Proof.
  unfold handleSettingChange. cbn [settings selectedPlanet].
  rewrite !spread_set_again. split; [ reflexivity | ].
  intros Hold. rewrite (spread_set_current _ _ _ Hold).
  destruct st; reflexivity.
Qed.

Lemma handleSettingChange_overwrites_witness :
  handleSettingChange "showOrbits" (Bool true)
    (handleSettingChange "showOrbits" (Bool false) PlanetarySystem_init)
  = PlanetarySystem_init.
Proof.
  apply (handleSettingChange_overwrites "showOrbits" (Bool false) (Bool true)
           (Bool true) PlanetarySystem_init).
  reflexivity.
Defined.

(** X3.  A change of a setting that the object holds keeps the property
    names and their order.  A change of a name that it does not hold adds
    that name, whatever it is: at the end when the name is not an array
    index, and in front of the settings when it is one (as ['1']) and the
    object holds no array index, as [simulationSettings] does not.  In
    particular the six settings stay six under the controls. *)
Theorem handleSettingChange_keys (key : string) (v : value)
    (st : PlanetarySystem_state) :
  (get key (settings st) <> None ->
   keys (settings (handleSettingChange key v st)) = keys (settings st))
  /\ (get key (settings st) = None -> array_index key = None ->
      keys (settings (handleSettingChange key v st)) = keys (settings st) ++ [key])
  /\ (get key (settings st) = None -> array_index key <> None ->
      Forall (fun k => array_index k = None) (keys (settings st)) ->
      keys (settings (handleSettingChange key v st)) = key :: keys (settings st)).
Proof.
  unfold handleSettingChange. cbn [settings]. unfold spread_set.
  destruct (get key (settings st)) as [w|] eqn:Hget.
  - split; [ intros _; apply keys_replace_value | ].
    split; intros H; discriminate.
  - split; [ intros H; contradiction | ].
    destruct (array_index key) as [i|].
    + split; [ intros _ H; discriminate | ].
      intros _ _ Hnames. apply keys_insert_index_front. exact Hnames.
    + split; [ | intros _ H; contradiction ].
      intros _ _. unfold keys. rewrite map_app. reflexivity.
Qed.

Lemma handleSettingChange_keys_witness :
  keys (settings (handleSettingChange "timeSpeed" (Number (Num 2.5))
                    PlanetarySystem_init))
  = keys simulationSettings
  /\ keys (settings (handleSettingChange "paused" (Bool true)
                       PlanetarySystem_init))
     = keys simulationSettings ++ ["paused"%string]
  /\ keys (settings (handleSettingChange "1" (Bool true) PlanetarySystem_init))
     = "1"%string :: keys simulationSettings.
Proof.
  split; [ | split ].
  - apply (handleSettingChange_keys "timeSpeed" (Number (Num 2.5))
             PlanetarySystem_init). discriminate.
  - apply (handleSettingChange_keys "paused" (Bool true) PlanetarySystem_init);
      reflexivity.
  - apply (handleSettingChange_keys "1" (Bool true) PlanetarySystem_init).
    + reflexivity.
    + discriminate.
    + repeat constructor.
Defined.

Lemma SolarSystemScene_ext (registry : object Body) (s1 s2 : object value) :
  field "showOrbits" s1 = field "showOrbits" s2 ->
  field "showLabels" s1 = field "showLabels" s2 ->
  field "ambientLightIntensity" s1 = field "ambientLightIntensity" s2 ->
  field "pointLightIntensity" s1 = field "pointLightIntensity" s2 ->
  SolarSystemScene registry s1 = SolarSystemScene registry s2.
Proof.
  intros H1 H2 H3 H4. unfold SolarSystemScene. rewrite H1, H2, H3, H4.
  reflexivity.
Qed.

Lemma frame_ext (registry : object Body) (s1 s2 : object value) (s : Scene) :
  field "timeSpeed" s1 = field "timeSpeed" s2 ->
  frame registry s1 s = frame registry s2 s.
Proof.
  intros H. unfold frame, SolarSystemScene_useFrame. rewrite H. reflexivity.
Qed.

(** X4.  The composed scene depends on four settings only: [showOrbits],
    [showLabels], [ambientLightIntensity] and [pointLightIntensity].  A
    change of any other setting ([timeSpeed], [cameraDistance], a new
    name) leaves the composition, its TypeError included, exactly as it
    was; and a frame depends on the settings through [timeSpeed] only, so
    that a change of any other setting does not alter what the next frame
    does. *)
Theorem settings_without_effect (registry : object Body) (key : string)
    (v : value) (st : PlanetarySystem_state) (s : Scene) :
  (key <> "showOrbits"%string -> key <> "showLabels"%string ->
   key <> "ambientLightIntensity"%string ->
   key <> "pointLightIntensity"%string ->
   SolarSystemScene registry (settings (handleSettingChange key v st))
   = SolarSystemScene registry (settings st))
  /\ (key <> "timeSpeed"%string ->
      frame registry (settings (handleSettingChange key v st)) s
      = frame registry (settings st) s).
Proof.
  unfold handleSettingChange. cbn [settings]. split.
  - intros H1 H2 H3 H4. apply SolarSystemScene_ext; rewrite field_spread_set.
    + apply String.eqb_neq in H1. rewrite H1. reflexivity.
    + apply String.eqb_neq in H2. rewrite H2. reflexivity.
    + apply String.eqb_neq in H3. rewrite H3. reflexivity.
    + apply String.eqb_neq in H4. rewrite H4. reflexivity.
  - intros H. apply frame_ext. rewrite field_spread_set.
    apply String.eqb_neq in H. rewrite H. reflexivity.
Qed.

Lemma settings_without_effect_witness :
  SolarSystemScene planetaryData
    (settings (handleSettingChange "timeSpeed" (Number (Num 5))
                 PlanetarySystem_init))
  = SolarSystemScene planetaryData simulationSettings
  /\ frame planetaryData
       (settings (handleSettingChange "showLabels" (Bool false)
                    PlanetarySystem_init))
       (SolarSystemScene_mount planetaryData)
     = frame planetaryData simulationSettings
         (SolarSystemScene_mount planetaryData).
Proof.
  split.
  - apply (settings_without_effect planetaryData "timeSpeed" (Number (Num 5))
             PlanetarySystem_init (SolarSystemScene_mount planetaryData));
      discriminate.
  - apply (settings_without_effect planetaryData "showLabels" (Bool false)
             PlanetarySystem_init (SolarSystemScene_mount planetaryData)).
    discriminate.
Defined.

(** ** Labels *)

Lemma labels_of_Planet (data : Body) (showLabels : value) :
  labels_of (Planet data showLabels)
  = if ToBoolean showLabels then [label_of data] else [].
Proof.
  unfold Planet, label_of. cbn [labels_of flat_map app].
  destruct (ToBoolean showLabels); [ | reflexivity ].
  destruct (position data) as [[a b] c]. reflexivity.
Qed.

Lemma labels_of_OrbitPath (radius visible : value) :
  labels_of (OrbitPath radius visible) = [].
Proof. unfold OrbitPath. destruct (ToBoolean visible); reflexivity. Qed.

Lemma orbit_elements_labels (registry : object Body) (settings : object value) :
  flat_map labels_of (orbit_elements registry settings) = [].
Proof.
  unfold orbit_elements. induction (values registry) as [|b bs IH];
    cbn [map flat_map]; [ reflexivity | ].
  rewrite IH.
  destruct (ToBoolean (prop (orbitRadius b)) && negb (truthy_string (parent b)));
    [ rewrite labels_of_OrbitPath | ]; reflexivity.
Qed.

Lemma planet_elements_labels (registry : object Body) (settings : object value) :
  flat_map labels_of (planet_elements registry settings)
  = if ToBoolean (field "showLabels" settings)
    then map label_of (values registry) else [].
Proof.
  unfold planet_elements. induction (values registry) as [|b bs IH];
    cbn [map flat_map].
  - destruct (ToBoolean (field "showLabels" settings)); reflexivity.
  - rewrite IH, labels_of_Planet.
    destruct (ToBoolean (field "showLabels" settings)); reflexivity.
Qed.

(** X5.  When [settings.showLabels] is truthy the scene holds one label
    for every body of the registry, in registry order: the body's name, at
    the body's base position raised by its radius and 2.  When it is falsy
    the scene holds no label at all.  Nothing else of the scene is a
    label. *)
Theorem scene_labels_shown (registry : object Body) (settings : object value)
    (scene : list element) :
  SolarSystemScene registry settings = Some scene ->
  scene_labels scene
  = if ToBoolean (field "showLabels" settings)
    then map label_of (values registry) else [].
Proof.
  unfold SolarSystemScene, scene_labels.
  fold (orbit_elements registry settings).
  fold (planet_elements registry settings).
  destruct (ToBoolean (field "showOrbits" settings)) eqn:Hshow.
  - destruct (get "moon" registry) as [m|]; [ | discriminate ].
    intros [= <-]. cbn [flat_map labels_of app].
    rewrite flat_map_app, orbit_elements_labels. cbn [flat_map labels_of app].
    rewrite labels_of_OrbitPath. cbn [app]. apply planet_elements_labels.
  - intros [= <-]. cbn [flat_map labels_of app].
    rewrite flat_map_app, orbit_elements_labels. cbn [flat_map labels_of app].
    apply planet_elements_labels.
Qed.

Lemma scene_labels_shown_witness :
  exists scene,
    SolarSystemScene planetaryData simulationSettings = Some scene
    /\ scene_labels scene = map label_of [sun; mercury; venus; earth; moon].
Proof.
  destruct (SolarSystemScene planetaryData simulationSettings) as [scene|] eqn:H.
  - exists scene. split; [ reflexivity | ].
    apply (scene_labels_shown planetaryData simulationSettings scene H).
  - apply SolarSystemScene_throws in H. destruct H as [_ H]. discriminate.
Defined.

(** X6.  The labels do not follow the planets.  The label of a body is
    composed from its base position, whatever the time; the mesh of a body
    that orbits the origin with a speed other than 0 is, at time 0 or at
    time [PI / orbitSpeed], at an [x] other than that of its label. *)
Theorem labels_stay_behind (registry : object Body) (data : Body) (r w : R) :
  orbitRadius data = Some r -> r <> 0 ->
  orbitSpeed data = Some w -> w <> 0 ->
  truthy_string (parent data) = false ->
  exists tau : R,
    (tau = 0 \/ tau = PI / w)
    /\ THREE.x (resolvedPosition registry data [] (Num tau))
       <> THREE.x (fst (label_of data)).
Proof.
  intros Hr Hnz Hw Hwnz Hp.
  pose proof (root_orbit_intro data r Hr Hnz Hp) as Hroot.
  assert (Hx : forall tau,
             THREE.x (resolvedPosition registry data [] (Num tau))
             = Num (cos (tau * w) * r)).
  { intros tau. rewrite (resolvedPosition_root registry data [] (Num tau) Hroot).
    rewrite Hr, Hw. reflexivity. }
  unfold label_of. destruct (position data) as [[p0 p1] p2]. cbn [fst THREE.x].
  destruct (Req_dec_T p0 r) as [-> | Hne].
  - exists (PI / w). split; [ right; reflexivity | ].
    rewrite Hx. replace (PI / w * w) with PI by (field; assumption).
    rewrite cos_PI. intros [= H]. lra.
  - exists 0. split; [ left; reflexivity | ].
    rewrite Hx, Rmult_0_l, cos_0. intros [= H]. lra.
Qed.

Lemma labels_stay_behind_witness :
  exists tau : R,
    (tau = 0 \/ tau = PI / 0.01)
    /\ THREE.x (resolvedPosition planetaryData earth [] (Num tau))
       <> THREE.x (fst (label_of earth)).
Proof.
  apply (labels_stay_behind planetaryData earth 30 0.01).
  - reflexivity.
  - lra.
  - reflexivity.
  - lra.
  - reflexivity.
Defined.

(** ** More on the kinematics *)

(** X7.  A body without a parent whose [orbitRadius] is absent or 0 never
    moves: at every time, after any earlier frames, its callback runs to
    its end and its mesh is at the base position. *)
Theorem stationary_body (registry : object Body) (data : Body)
    (earlier : list number) (t : number) :
  orbitRadius data = None \/ orbitRadius data = Some 0 ->
  truthy_string (parent data) = false ->
  completes (Planet_frame registry data t
               (Planet_frames registry data earlier (Planet_mount data))) = true
  /\ resolvedPosition registry data earlier t = vector_of (position data).
Proof.
  intros Hr Hp.
  assert (Hroot : root_orbit data = false).
  { unfold root_orbit. destruct Hr as [-> | ->]; cbn [prop ToBoolean].
    - reflexivity.
    - unfold truthy_number. destruct (Req_dec_T 0 0); [ reflexivity | lra ]. }
  split.
  - rewrite Planet_frame_completes, Hp. reflexivity.
  - apply resolvedPosition_still; assumption.
Qed.

Lemma stationary_body_witness :
  completes (Planet_frame planetaryData sun (Num 3)
               (Planet_frames planetaryData sun [Num 1; Num 2] (Planet_mount sun)))
  = true
  /\ resolvedPosition planetaryData sun [Num 1; Num 2] (Num 3)
     = vector_of (position sun).
Proof.
  apply (stationary_body planetaryData sun [Num 1; Num 2] (Num 3)).
  - left. reflexivity.
  - reflexivity.
Defined.

(** X8.  A body with a parent keeps its distance from Earth: when
    [planetaryData.earth] orbits the origin, at every time the resolved
    positions of the body and of Earth are [|orbitRadius|] apart in the
    horizontal plane, and as far apart in space when their base positions
    have the same height. *)
Theorem child_earth_distance (registry : object Body) (data e : Body)
    (r w re we : R) (earlier earlier' : list number) (tau : R) :
  truthy_string (parent data) = true ->
  orbitRadius data = Some r -> orbitSpeed data = Some w ->
  get "earth" registry = Some e ->
  orbitRadius e = Some re -> re <> 0 -> orbitSpeed e = Some we ->
  truthy_string (parent e) = false ->
  horizontal_distance (resolvedPosition registry data earlier (Num tau))
                      (resolvedPosition registry e earlier' (Num tau))
  = Num (Rabs r)
  /\ (basePosition_y data = basePosition_y e ->
      distance (resolvedPosition registry data earlier (Num tau))
               (resolvedPosition registry e earlier' (Num tau))
      = Num (Rabs r)).
Proof.
  intros Hp Hr Hw He Hre Hnz Hwe Hpe.
  rewrite (resolvedPosition_child registry data e earlier (Num tau) Hp He).
  rewrite (resolvedPosition_root registry e earlier' (Num tau)
             (root_orbit_intro e re Hre Hnz Hpe)).
  rewrite Hr, Hw, Hre, Hwe. cbn. split.
  - f_equal. rewrite <- (circle_radius (tau * w) r). f_equal. lra.
  - intros Hy. f_equal. rewrite Hy, <- (circle_radius (tau * w) r).
    f_equal. lra.
Qed.

Lemma child_earth_distance_witness :
  horizontal_distance (resolvedPosition planetaryData moon [] (Num 12))
                      (resolvedPosition planetaryData earth [Num 5] (Num 12))
  = Num (Rabs 4)
  /\ distance (resolvedPosition planetaryData moon [] (Num 12))
              (resolvedPosition planetaryData earth [Num 5] (Num 12))
     = Num (Rabs 4).
Proof.
  destruct (child_earth_distance planetaryData moon earth 4 0.05 30 0.01
              [] [Num 5] 12) as (Hh & Hd);
    try reflexivity; try lra.
  split; [ exact Hh | apply Hd; reflexivity ].
Defined.

(** X9.  The orbit of a body about the origin is periodic: with an
    [orbitSpeed] other than 0, the resolved position at time
    [t + 2 * PI / orbitSpeed] is the resolved position at time [t]. *)
Theorem root_orbit_period (registry : object Body) (data : Body) (r w : R)
    (earlier earlier' : list number) (tau : R) :
  orbitRadius data = Some r -> r <> 0 ->
  orbitSpeed data = Some w -> w <> 0 ->
  truthy_string (parent data) = false ->
  resolvedPosition registry data earlier (Num (tau + 2 * PI / w))
  = resolvedPosition registry data earlier' (Num tau).
Proof.
  intros Hr Hnz Hw Hwnz Hp.
  pose proof (root_orbit_intro data r Hr Hnz Hp) as Hroot.
  rewrite !(resolvedPosition_root registry data _ _ Hroot).
  rewrite Hr, Hw. cbn.
  replace ((tau + 2 * PI / w) * w) with (tau * w + 2 * PI) by (field; assumption).
  rewrite cos_plus, sin_plus, cos_2PI, sin_2PI.
  f_equal; f_equal; lra.
Qed.

Lemma root_orbit_period_witness :
  resolvedPosition planetaryData mercury [] (Num (1 + 2 * PI / 0.02))
  = resolvedPosition planetaryData mercury [Num 0.5] (Num 1).
Proof.
  apply (root_orbit_period planetaryData mercury 15 0.02 [] [Num 0.5] 1).
  - reflexivity.
  - lra.
  - reflexivity.
  - lra.
  - reflexivity.
Defined.

Lemma Planet_frames_rotation (registry : object Body) (data : Body)
    (times : list number) (m : THREE.Object3D) (a : R) :
  THREE.y (THREE.rotation m) = Num a ->
  THREE.rotation (Planet_frames registry data times m)
  = THREE.mkVector3 (THREE.x (THREE.rotation m))
      (Num (a + INR (List.length times) * rotationSpeed data))
      (THREE.z (THREE.rotation m)).
Proof.
  revert m a. induction times as [|t times IH]; intros m a Ha.
  - cbn [Planet_frames List.length INR]. rewrite Rmult_0_l, Rplus_0_r, <- Ha.
    destruct m as [p [rx ry rz]]. reflexivity.
  - cbn [Planet_frames].
    rewrite (IH _ (a + rotationSpeed data)).
    + rewrite Planet_frame_rotation. cbn [THREE.x THREE.z].
      change (List.length (t :: times)) with (S (List.length times)).
      rewrite S_INR. f_equal. f_equal. lra.
    + rewrite Planet_frame_rotation, Ha. reflexivity.
Qed.

(** X10.  The spin counts the callbacks and nothing else: after [n]
    invocations of the callback since mounting, at whatever times and
    whether or not they threw, the rotation of the mesh is
    [(0, n * rotationSpeed, 0)]. *)
Theorem spin_counts_frames (registry : object Body) (data : Body)
    (times : list number) :
  THREE.rotation (Planet_frames registry data times (Planet_mount data))
  = THREE.mkVector3 (Num 0)
      (Num (INR (List.length times) * rotationSpeed data))
      (Num 0).
Proof.
  rewrite (Planet_frames_rotation registry data times (Planet_mount data) 0
             eq_refl).
  cbn [Planet_mount THREE.rotation THREE.x THREE.z].
  f_equal. f_equal. lra.
Qed.

(** ** More on the frame loop *)

Lemma Planets_useFrame_completes (registry : object Body) (t : number)
    (ps : list (Body * THREE.Object3D)) :
  completes (Planets_useFrame registry t ps) = frame_safe registry ps.
Proof.
  destruct (frame_safe registry ps) eqn:Hsafe.
  - rewrite (Planets_useFrame_safe registry t ps Hsafe). reflexivity.
  - unfold frame_safe in Hsafe.
    destruct (get "earth" registry) eqn:He; [ discriminate | ].
    induction ps as [|[data m] rest IH]; [ discriminate | ].
    cbn [Planets_useFrame]. cbn [forallb fst] in Hsafe.
    pose proof (Planet_frame_completes registry data t m) as Hc.
    rewrite He, orb_false_r in Hc.
    destruct (Planet_frame registry data t m) as [m'|m']; [ | reflexivity ].
    cbn [completes] in Hc. rewrite <- Hc in Hsafe. cbn [andb] in Hsafe.
    specialize (IH Hsafe).
    destruct (Planets_useFrame registry t rest); [ discriminate | reflexivity ].
Qed.

(** X12.  A frame is cut short by a TypeError exactly when the registry
    has no [earth] and the scene holds a body with a parent; the time, the
    settings and the positions of the meshes have no part in it. *)
Theorem frame_throws_iff (registry : object Body) (settings : object value)
    (s : Scene) :
  completes (frame registry settings s) = false
  <-> get "earth" registry = None
      /\ exists data, In data (bodies_in s)
                      /\ truthy_string (parent data) = true.
Proof.
  assert (Hc : completes (frame registry settings s)
               = frame_safe registry (planets s)).
  { unfold frame. rewrite <- (Planets_useFrame_completes registry (time s)).
    destruct (Planets_useFrame registry (time s) (planets s)); reflexivity. }
  rewrite Hc. unfold frame_safe, bodies_in. clear Hc.
  generalize (planets s) as ps. intros ps.
  destruct (get "earth" registry) as [e|].
  - split; [ discriminate | intros [H _]; discriminate ].
  - split.
    + intros H. split; [ reflexivity | ].
      induction ps as [|[data m] rest IH]; cbn in H; [ discriminate | ].
      cbn [map fst]. destruct (truthy_string (parent data)) eqn:Hp.
      * exists data. split; [ left; reflexivity | exact Hp ].
      * cbn in H. destruct (IH H) as (d & Hin & Hd).
        exists d. split; [ right; exact Hin | exact Hd ].
    + intros (_ & data & Hin & Hp).
      induction ps as [|[d m] rest IH]; cbn in Hin; [ contradiction | ].
      cbn [forallb fst]. destruct Hin as [-> | Hin].
      * rewrite Hp. reflexivity.
      * rewrite (IH Hin). apply andb_false_r.
Qed.

Lemma frames_safe (registry : object Body) (ss : list (object value)) :
  forall s, frame_safe registry (planets s) = true ->
  time (frames registry ss s) = clock_after ss (time s)
  /\ frame_safe registry (planets (frames registry ss s)) = true.
Proof.
  induction ss as [|settings ss IH]; intros s Hsafe; cbn [frames clock_after fold_left].
  - split; [ reflexivity | assumption ].
  - rewrite (frame_safe_Done registry settings s Hsafe). cbn [state_of].
    apply IH. cbn [planets]. rewrite frame_safe_advance. exact Hsafe.
Qed.

Lemma clock_after_repeat (settings : object value) (v t : R) (n : nat) :
  timeSpeed_of settings = Num v ->
  clock_after (repeat settings n) (Num t) = Num (t + INR n * (v * 0.01)).
Proof.
  intros Hv. revert t. induction n as [|n IH]; intros t.
  - cbn. f_equal. lra.
  - cbn [repeat clock_after fold_left]. unfold SolarSystemScene_useFrame at 2.
    fold (timeSpeed_of settings). rewrite Hv. cbn [JS.mul JS.add].
    fold (clock_after (repeat settings n) (Num (t + v * 0.01))).
    rewrite IH, S_INR. f_equal. lra.
Qed.

(** X13.  At a constant [timeSpeed] [v] the clock is linear in the number
    of frames: [n] frames that run to their end take the time from [t] to
    [t + n * (v * 0.01)].  The speed is not checked: with a negative one
    the time runs backwards. *)
Theorem clock_constant_speed (registry : object Body) (settings : object value)
    (v t : R) (n : nat) (s : Scene) :
  timeSpeed_of settings = Num v ->
  time s = Num t ->
  frame_safe registry (planets s) = true ->
  time (frames registry (repeat settings n) s) = Num (t + INR n * (v * 0.01)).
Proof.
  intros Hv Ht Hsafe.
  destruct (frames_safe registry (repeat settings n) s Hsafe) as [-> _].
  rewrite Ht. apply clock_after_repeat. exact Hv.
Qed.

Lemma clock_constant_speed_witness :
  time (frames planetaryData
          (repeat (settings (handleSettingChange "timeSpeed" (Number (Num (-2)))
                               PlanetarySystem_init)) 3)
          (SolarSystemScene_mount planetaryData))
  = Num (0 + INR 3 * (-2 * 0.01)).
Proof.
  apply (clock_constant_speed planetaryData
           (settings (handleSettingChange "timeSpeed" (Number (Num (-2)))
                        PlanetarySystem_init))
           (-2) 0 3 (SolarSystemScene_mount planetaryData)).
  - reflexivity.
  - reflexivity.
  - reflexivity.
Defined.

(** X14.  A time that is not a number is never repaired: once the time is
    [NaN] it is [NaN] after any run of frames at any speeds; and one frame
    that runs to its end while [timeSpeed] is not a number (absent, or
    [NaN]) makes it so. *)
Theorem clock_NaN_absorbing (registry : object Body) (s : Scene) :
  (forall ss, time s = NaN -> time (frames registry ss s) = NaN)
  /\ (forall settings,
         timeSpeed_of settings = NaN ->
         completes (frame registry settings s) = true ->
         time (state_of (frame registry settings s)) = NaN).
Proof.
  split.
  - intros ss. revert s. induction ss as [|settings ss IH]; intros s Ht;
      cbn [frames]; [ exact Ht | ].
    apply IH. rewrite frame_time.
    destruct (completes (frame registry settings s)); [ | exact Ht ].
    unfold SolarSystemScene_useFrame. rewrite Ht. reflexivity.
  - intros settings Hv Hc. rewrite frame_time, Hc.
    unfold SolarSystemScene_useFrame. fold (timeSpeed_of settings).
    rewrite Hv. destruct (time s); reflexivity.
Qed.

Lemma clock_NaN_absorbing_witness :
  time (frames planetaryData [simulationSettings; simulationSettings]
          (state_of (frame planetaryData
                       (settings (handleSettingChange "timeSpeed" undefined
                                    PlanetarySystem_init))
                       (SolarSystemScene_mount planetaryData))))
  = NaN.
Proof.
  destruct (clock_NaN_absorbing planetaryData
              (state_of (frame planetaryData
                           (settings (handleSettingChange "timeSpeed" undefined
                                        PlanetarySystem_init))
                           (SolarSystemScene_mount planetaryData))))
    as [Hstay _].
  apply Hstay.
  destruct (clock_NaN_absorbing planetaryData
              (SolarSystemScene_mount planetaryData)) as [_ Hstep].
  apply Hstep.
  - reflexivity.
  - rewrite (frame_safe_Done planetaryData _ _
               (frame_safe_mount planetaryData earth eq_refl)).
    reflexivity.
Defined.

(** X15.  A body that orbits the origin is put at [(NaN, basePosition.y,
    NaN)] when the time is [NaN] or when it has no [orbitSpeed]: the
    callback runs to its end and leaves a mesh without a horizontal
    position. *)
Theorem position_not_a_number (registry : object Body) (data : Body) (r : R)
    (earlier : list number) (t : number) :
  orbitRadius data = Some r -> r <> 0 ->
  truthy_string (parent data) = false ->
  t = NaN \/ orbitSpeed data = None ->
  completes (Planet_frame registry data t
               (Planet_frames registry data earlier (Planet_mount data))) = true
  /\ resolvedPosition registry data earlier t
     = THREE.mkVector3 NaN (Num (basePosition_y data)) NaN.
Proof.
  intros Hr Hnz Hp Hnan. split.
  - rewrite Planet_frame_completes, Hp. reflexivity.
  - rewrite (resolvedPosition_root registry data earlier t
               (root_orbit_intro data r Hr Hnz Hp)).
    destruct Hnan as [-> | ->]; [ reflexivity | ].
    destruct t; reflexivity.
Qed.

Lemma position_not_a_number_witness :
  resolvedPosition planetaryData venus [Num 1] NaN
  = THREE.mkVector3 NaN (Num (basePosition_y venus)) NaN.
Proof.
  apply (position_not_a_number planetaryData venus 22 [Num 1] NaN).
  - reflexivity.
  - lra.
  - reflexivity.
  - left. reflexivity.
Defined.

Lemma frame_throws_iff_witness :
  completes (frame planetaryData_no_earth simulationSettings
               (SolarSystemScene_mount planetaryData_no_earth)) = false.
Proof.
  apply (frame_throws_iff planetaryData_no_earth simulationSettings
           (SolarSystemScene_mount planetaryData_no_earth)).
  split; [ reflexivity | ].
  exists moon. split; [ cbn; tauto | reflexivity ].
Defined.

(** ** More on the composition *)

(** X16.  The composition throws exactly when [settings.showOrbits] is
    truthy and the registry has no [moon]; no other content of the
    registry or of the settings makes it fail.  When it succeeds the
    fragment has two children for every body and four more, whether or not
    guides and labels are shown. *)
Theorem composition_throws_iff (registry : object Body)
    (settings : object value) :
  (SolarSystemScene registry settings = None
   <-> ToBoolean (field "showOrbits" settings) = true
       /\ get "moon" registry = None)
  /\ (forall scene,
         SolarSystemScene registry settings = Some scene ->
         List.length scene = (4 + 2 * List.length (values registry))%nat).
Proof.
  split; [ apply SolarSystemScene_throws | ].
  intros scene. unfold SolarSystemScene.
  destruct (ToBoolean (field "showOrbits" settings)).
  - destruct (get "moon" registry); [ | discriminate ].
    intros [= <-]. cbn [app List.length].
    rewrite !length_app, !length_map. cbn [List.length]. rewrite ?length_map. lia.
  - intros [= <-]. cbn [app List.length].
    rewrite !length_app, !length_map. cbn [List.length]. rewrite ?length_map. lia.
Qed.

Lemma composition_throws_iff_witness :
  SolarSystemScene planetaryData_no_earth
    (settings (handleSettingChange "showOrbits" (Number (Num 1))
                 PlanetarySystem_init))
  <> None
  /\ SolarSystemScene scenario_registry simulationSettings <> None
  /\ SolarSystemScene [("sun"%string, sun)] simulationSettings = None.
Proof.
  destruct (composition_throws_iff planetaryData_no_earth
              (settings (handleSettingChange "showOrbits" (Number (Num 1))
                           PlanetarySystem_init))) as [[H1 _] _].
  destruct (composition_throws_iff scenario_registry simulationSettings)
    as [[H2 _] _].
  destruct (composition_throws_iff [("sun"%string, sun)] simulationSettings)
    as [[_ H3] _].
  split; [ | split ].
  - intros H. destruct (H1 H) as [_ Hm]. discriminate.
  - intros H. destruct (H2 H) as [_ Hm]. discriminate.
  - apply H3. split; reflexivity.
Defined.

Lemma edges_map_seq {A : Type} (f : nat -> A) (n a : nat) :
  combine (map f (seq a (S n))) (tl (map f (seq a (S n))))
  = map (fun i => (f i, f (S i))) (seq a n).
Proof.
  revert a. induction n as [|n IH]; intros a; [ reflexivity | ].
  specialize (IH (S a)).
  change (seq a (S (S n))) with (a :: seq (S a) (S n)).
  change (seq a (S n)) with (a :: seq (S a) n).
  cbn [map tl]. cbn [map tl] in IH.
  change (seq (S a) (S n)) with (S a :: seq (S (S a)) n) in IH |- *.
  cbn [map tl combine] in IH |- *. rewrite IH. reflexivity.
Qed.

Lemma chord_length (a b r : R) :
  sqrt ((cos a * r - cos b * r) * (cos a * r - cos b * r)
        + (0 - 0) * (0 - 0)
        + (sin a * r - sin b * r) * (sin a * r - sin b * r))
  = Rabs r * sqrt (2 - 2 * cos (b - a)).
Proof.
  rewrite <- sqrt_Rsqr_abs, <- sqrt_mult_alt by apply Rle_0_sqr.
  f_equal. rewrite cos_minus.
  pose proof (sin2_cos2 a) as Ha. pose proof (sin2_cos2 b) as Hb.
  unfold Rsqr in *. nra.
Qed.

(** X17.  The guide of a numeric radius [r] is a regular polygon: its 65
    vertices make 64 segments, and every segment has the same length,
    [|r| * sqrt (2 - 2 * cos (PI / 32))]. *)
Theorem OrbitPath_regular (r : R) :
  List.length (OrbitPath_points (Number (Num r))) = 65%nat
  /\ List.length (edges (OrbitPath_points (Number (Num r)))) = 64%nat
  /\ Forall (fun e => distance (fst e) (snd e)
                      = Num (Rabs r * sqrt (2 - 2 * cos (PI / 32))))
            (edges (OrbitPath_points (Number (Num r)))).
Proof.
  unfold edges, OrbitPath_points.
  change 65%nat with (S 64) at 2 3 4 5.
  rewrite edges_map_seq.
  split; [ rewrite length_map, length_seq; reflexivity | ].
  split; [ rewrite length_map, length_seq; reflexivity | ].
  apply Forall_forall. intros e Hin. apply in_map_iff in Hin.
  destruct Hin as (i & <- & _). cbn [fst snd].
  rewrite !OrbitPath_point_number. unfold distance. cbn [THREE.x THREE.y THREE.z].
  f_equal. rewrite chord_length. f_equal. f_equal. f_equal. f_equal. f_equal.
  rewrite S_INR. lra.
Qed.

Lemma OrbitPath_points_undefined :
  OrbitPath_points undefined = repeat (THREE.mkVector3 NaN (Num 0) NaN) 65.
Proof.
  unfold OrbitPath_points.
  rewrite (map_ext _ (fun _ => THREE.mkVector3 NaN (Num 0) NaN)).
  - rewrite map_const, length_seq. reflexivity.
  - intros i. rewrite OrbitPath_point_angle. reflexivity.
Qed.

(** X18.  A [moon] entry without an [orbitRadius] does not stop the
    composition: with orbits shown, the scene ends its guides with a
    geometry of 65 vertices that all are [(NaN, 0, 0)]; the points pushed
    are [(NaN, 0, NaN)], and [setFromPoints] stores [z || 0]. *)
Theorem moon_guide_without_radius (registry : object Body)
    (settings : object value) (m : Body) :
  ToBoolean (field "showOrbits" settings) = true ->
  get "moon" registry = Some m ->
  orbitRadius m = None ->
  exists scene,
    SolarSystemScene registry settings = Some scene
    /\ orbit_guides scene
       = root_guides registry
         ++ [repeat (THREE.mkVector3 NaN (Num 0) (Num 0)) 65].
Proof.
  intros Hshow Hmoon Hr.
  destruct (SolarSystemScene registry settings) as [scene|] eqn:Hscene.
  - exists scene. split; [ reflexivity | ].
    rewrite (SolarSystemScene_guides _ _ _ Hscene), Hshow, Hmoon, Hr.
    cbn [prop]. rewrite OrbitPath_points_undefined.
    unfold setFromPoints. rewrite map_repeat. reflexivity.
  - apply SolarSystemScene_throws in Hscene. destruct Hscene as [_ H].
    rewrite Hmoon in H. discriminate.
Qed.

Lemma moon_guide_without_radius_witness :
  exists scene,
    SolarSystemScene planetaryData_bare_moon simulationSettings = Some scene
    /\ orbit_guides scene
       = root_guides planetaryData_bare_moon
         ++ [repeat (THREE.mkVector3 NaN (Num 0) (Num 0)) 65].
Proof.
  apply (moon_guide_without_radius planetaryData_bare_moon simulationSettings
           bare_moon); reflexivity.
Defined.

(** ** Start and edges of the motion *)

(** X19.  The first frame moves no body that is mounted where its orbit
    begins: at time 0 a body that orbits the origin resolves to
    [(orbitRadius, basePosition.y, 0)] and a body with a parent to
    [(earth.orbitRadius + orbitRadius, basePosition.y, 0)], which is the
    base position when the registry gives it so, as it does for every
    planet and for the Moon. *)
Theorem first_frame_at_rest (registry : object Body) (data : Body)
    (r w : R) (earlier : list number) :
  orbitRadius data = Some r -> orbitSpeed data = Some w ->
  (r <> 0 -> truthy_string (parent data) = false ->
   resolvedPosition registry data earlier (Num 0)
   = THREE.mkVector3 (Num r) (Num (basePosition_y data)) (Num 0)
   /\ (position data = (r, basePosition_y data, 0) ->
       resolvedPosition registry data earlier (Num 0)
       = vector_of (position data)))
  /\ (forall e re we,
         truthy_string (parent data) = true ->
         get "earth" registry = Some e ->
         orbitRadius e = Some re -> orbitSpeed e = Some we ->
         resolvedPosition registry data earlier (Num 0)
         = THREE.mkVector3 (Num (re + r)) (Num (basePosition_y data)) (Num 0)
         /\ (position data = (re + r, basePosition_y data, 0) ->
             resolvedPosition registry data earlier (Num 0)
             = vector_of (position data))).
Proof.
  intros Hr Hw. split.
  - intros Hnz Hp.
    assert (H : resolvedPosition registry data earlier (Num 0)
                = THREE.mkVector3 (Num r) (Num (basePosition_y data)) (Num 0)).
    { rewrite (resolvedPosition_root registry data earlier (Num 0)
                 (root_orbit_intro data r Hr Hnz Hp)).
      rewrite Hr, Hw. cbn. rewrite Rmult_0_l, cos_0, sin_0.
      f_equal; f_equal; lra. }
    split; [ exact H | ]. intros Hpos. rewrite H, Hpos. reflexivity.
  - intros e re we Hp He Hre Hwe.
    assert (H : resolvedPosition registry data earlier (Num 0)
                = THREE.mkVector3 (Num (re + r)) (Num (basePosition_y data))
                    (Num 0)).
    { rewrite (resolvedPosition_child registry data e earlier (Num 0) Hp He).
      rewrite Hr, Hw, Hre, Hwe. cbn. rewrite !Rmult_0_l, cos_0, sin_0.
      f_equal; f_equal; lra. }
    split; [ exact H | ]. intros Hpos. rewrite H, Hpos. reflexivity.
Qed.

Lemma first_frame_at_rest_witness :
  resolvedPosition planetaryData venus [] (Num 0) = vector_of (position venus)
  /\ resolvedPosition planetaryData moon [] (Num 0) = vector_of (position moon).
Proof.
  destruct (first_frame_at_rest planetaryData venus 22 0.015 [] eq_refl eq_refl)
    as [Hroot _].
  destruct (first_frame_at_rest planetaryData moon 4 0.05 [] eq_refl eq_refl)
    as [_ Hchild].
  split.
  - apply Hroot; [ lra | reflexivity | reflexivity ].
  - apply (Hchild earth 30 0.01); try reflexivity.
    unfold basePosition_y. cbn. f_equal. f_equal. lra.
Defined.

Lemma sum_of_circles (c1 s1 c2 s2 a b : R) :
  c1 * c1 + s1 * s1 = 1 -> c2 * c2 + s2 * s2 = 1 ->
  (Rabs a - Rabs b) * (Rabs a - Rabs b)
  <= (c1 * a + c2 * b - 0) * (c1 * a + c2 * b - 0)
     + (s1 * a + s2 * b - 0) * (s1 * a + s2 * b - 0)
  <= (Rabs a + Rabs b) * (Rabs a + Rabs b).
Proof.
  intros H1 H2.
  assert (Hk : -1 <= c1 * c2 + s1 * s2 <= 1).
  { pose proof (Rle_0_sqr (c1 - c2)) as Ha. pose proof (Rle_0_sqr (s1 - s2)) as Hb.
    pose proof (Rle_0_sqr (c1 + c2)) as Hc. pose proof (Rle_0_sqr (s1 + s2)) as Hd.
    unfold Rsqr in *. split; nra. }
  set (k := c1 * c2 + s1 * s2) in *.
  replace ((c1 * a + c2 * b - 0) * (c1 * a + c2 * b - 0)
           + (s1 * a + s2 * b - 0) * (s1 * a + s2 * b - 0))
    with (a * a * (c1 * c1 + s1 * s1) + b * b * (c2 * c2 + s2 * s2)
          + 2 * (a * b) * k) by (unfold k; ring).
  rewrite H1, H2. destruct Hk as [Hk1 Hk2].
  unfold Rabs. destruct (Rcase_abs a), (Rcase_abs b);
    first [ assert (Hab : 0 <= a * b) by nra
          | assert (Hab : 0 <= - (a * b)) by nra ];
    pose proof (Rmult_le_compat_l _ _ _ Hab Hk1) as Hlo;
    pose proof (Rmult_le_compat_l _ _ _ Hab Hk2) as Hhi;
    split; nra.
Qed.

(** X20.  A body with a parent stays in a ring about the origin: when
    [planetaryData.earth] has the [orbitRadius] [R] and an [orbitSpeed],
    and the body the [orbitRadius] [r] and an [orbitSpeed], at every time
    the horizontal distance of the body from the origin lies between
    [| |R| - |r| |] and [|R| + |r|]; for the Moon of the registry between
    26 and 34. *)
Theorem child_stays_in_ring (registry : object Body) (data e : Body)
    (r w re we : R) (earlier : list number) (tau : R) :
  truthy_string (parent data) = true ->
  orbitRadius data = Some r -> orbitSpeed data = Some w ->
  get "earth" registry = Some e ->
  orbitRadius e = Some re -> orbitSpeed e = Some we ->
  exists d : R,
    horizontal_distance (resolvedPosition registry data earlier (Num tau)) origin
    = Num d
    /\ Rabs (Rabs re - Rabs r) <= d <= Rabs re + Rabs r.
Proof.
  intros Hp Hr Hw He Hre Hwe.
  rewrite (resolvedPosition_child registry data e earlier (Num tau) Hp He).
  rewrite Hr, Hw, Hre, Hwe. cbn. eexists. split; [ reflexivity | ].
  pose proof (sin2_cos2 (tau * we)) as H1. pose proof (sin2_cos2 (tau * w)) as H2.
  unfold Rsqr in H1, H2.
  destruct (sum_of_circles (cos (tau * we)) (sin (tau * we))
              (cos (tau * w)) (sin (tau * w)) re r
              ltac:(lra) ltac:(lra)) as [Hlo Hhi].
  split.
  - rewrite <- sqrt_Rsqr_abs. apply sqrt_le_1_alt. exact Hlo.
  - rewrite <- (sqrt_square (Rabs re + Rabs r)).
    + apply sqrt_le_1_alt. exact Hhi.
    + pose proof (Rabs_pos re). pose proof (Rabs_pos r). lra.
Qed.

Lemma child_stays_in_ring_witness :
  exists d : R,
    horizontal_distance (resolvedPosition planetaryData moon [] (Num 100)) origin
    = Num d
    /\ Rabs (Rabs 30 - Rabs 4) <= d <= Rabs 30 + Rabs 4.
Proof.
  apply (child_stays_in_ring planetaryData moon earth 4 0.05 30 0.01 [] 100);
    reflexivity.
Defined.

(** X21.  Without [planetaryData.earth] a body with a parent spins but
    never moves: every invocation of its callback throws after it has
    added [rotationSpeed] to the spin and before it writes the position,
    so that at every time, after any earlier frames, the mesh is at the
    base position. *)
Theorem child_without_earth (registry : object Body) (data : Body)
    (earlier : list number) (t : number) (m : THREE.Object3D) :
  truthy_string (parent data) = true ->
  get "earth" registry = None ->
  Planet_frame registry data t m
  = Throws (THREE.mkObject3D (THREE.position m)
              (THREE.mkVector3 (THREE.x (THREE.rotation m))
                 (THREE.y (THREE.rotation m) + Num (rotationSpeed data))%js
                 (THREE.z (THREE.rotation m))))
  /\ resolvedPosition registry data earlier t = vector_of (position data).
Proof.
  intros Hp He. split.
  - rewrite (Planet_frame_child_throws registry data t m Hp He). reflexivity.
  - rewrite resolvedPosition_from_mount.
    rewrite (Planet_frame_child_throws registry data t _ Hp He). reflexivity.
Qed.

Lemma child_without_earth_witness :
  resolvedPosition planetaryData_no_earth moon [Num 1; Num 2] (Num 3)
  = vector_of (position moon).
Proof.
  apply (child_without_earth planetaryData_no_earth moon [Num 1; Num 2] (Num 3)
           (Planet_mount moon)); reflexivity.
Defined.
